(** * Lattice-parameter environment of gflownet (LatticeParametersSGCCG)

    A shallow embedding of
    [gflownet/envs/crystals/lattice_parameters.py], class
    [LatticeParametersSGCCG], and the properties of its constraint
    tables, constraint application, coordinate maps and step function.

    Python lists are [list]s; a Python exception is the [Raise] branch
    of [result]; methods that mutate [self] thread the environment
    record explicitly. Python floats are idealised as real numbers
    ([R]) where values are only moved, compared with constants of the
    tables or bounded; the affine maps and the step function are
    embedded a second time over binary64 ([float]) for the properties
    that compare computed values for equality. *)

From Stdlib Require Import PrimFloat String Ascii List Bool Arith Lia Reals Lra.
Import ListNotations.

Set Implicit Arguments.

(** ** The fragment of the Python runtime the class relies on *)

Module Py.

Inductive exn : Type :=
| IndexError
| TypeError
| ValueError (msg : string).

Inductive result (A : Type) : Type :=
| Ok (a : A)
| Raise (e : exn).

Arguments Ok {A} a.
Arguments Raise {A} e.

Definition bind {A B} (m : result A) (k : A -> result B) : result B :=
  match m with
  | Ok a => k a
  | Raise e => Raise e
  end.

(** [l[i]] for a non-negative index. *)
Definition getitem {A} (l : list A) (i : nat) : result A :=
  match nth_error l i with
  | Some x => Ok x
  | None => Raise IndexError
  end.

(** [zip] of three iterables stops at the shortest one. *)
Fixpoint zip3 {A B C} (xs : list A) (ys : list B) (zs : list C)
  : list (A * B * C) :=
  match xs, ys, zs with
  | x :: xs', y :: ys', z :: zs' => (x, y, z) :: zip3 xs' ys' zs'
  | _, _, _ => []
  end.

(** [s.replace(c, '')] for a one-character [c]. *)
Fixpoint remove_char (c : ascii) (s : string) : string :=
  match s with
  | EmptyString => EmptyString
  | String a s' =>
      if Ascii.eqb a c then remove_char c s'
      else String a (remove_char c s')
  end.

(** [s.split(c)] for a one-character separator: one more piece than
    there are separators, empty pieces kept. *)
Fixpoint split_on (c : ascii) (s : string) : list string :=
  match s with
  | EmptyString => [EmptyString]
  | String a s' =>
      match split_on c s' with
      | [] => [EmptyString]
      | piece :: pieces =>
          if Ascii.eqb a c then EmptyString :: piece :: pieces
          else String a piece :: pieces
      end
  end.

(** [[f(x) for x in xs]] where [f] may raise: the first exception
    wins. *)
Fixpoint map_result {A B} (f : A -> result B) (xs : list A)
  : result (list B) :=
  match xs with
  | [] => Ok []
  | x :: xs' =>
      bind (f x) (fun y => bind (map_result f xs') (fun ys => Ok (y :: ys)))
  end.

End Py.

Import Py.

Notation "x <- m ;; k" := (Py.bind m (fun x => k))
  (at level 61, m at next level, right associativity).

(** ** Constraint application

    [apply_projection_constraints] and [apply_lattice_constraints] run
    the same loop over two pairs of attributes. The loop is written
    once, over the list of indices [range(len(tied))] and the output
    list built so far. *)

Section ConstraintLoop.

Context {A : Type}.
Variable tied : list (option nat).
Variable fixed : list (option A).
Variable vec : list A.

(** The body of the [for] loop: the value appended at index [i]. *)
Definition constrained_element (out : list A) (i : nat) : result A :=
  f <- getitem fixed i ;;
  match f with
  | Some value => Ok value
  | None =>
      t <- getitem tied i ;;
      match t with
      | Some tied_idx => getitem out tied_idx
      | None => getitem vec i
      end
  end.

Fixpoint constrain_loop (idxs : list nat) (out : list A)
  : result (list A) :=
  match idxs with
  | [] => Ok out
  | i :: rest =>
      value <- constrained_element out i ;;
      constrain_loop rest (out ++ [value])
  end.

Definition apply_constraints : result (list A) :=
  constrain_loop (seq 0 (length tied)) [].

End ConstraintLoop.

(** Every tie target has a lower index than the dimension tied to it. *)
Definition tie_targets_lower (tied : list (option nat)) : bool :=
  forallb
    (fun it : nat * option nat =>
       match snd it with
       | Some j => j <? fst it
       | None => true
       end)
    (combine (seq 0 (length tied)) tied).

(** What the loop is expected to compute at index [i], given the
    finished output [out]. *)
Definition expected_at {A} (tied : list (option nat)) (fixed : list (option A))
  (vec out : list A) (i : nat) : option A :=
  match nth_error fixed i with
  | Some (Some value) => Some value
  | Some None =>
      match nth_error tied i with
      | Some (Some tied_idx) => nth_error out tied_idx
      | Some None => nth_error vec i
      | None => None
      end
  | None => None
  end.

Definition resolved {A} (tied : list (option nat)) (fixed : list (option A))
  (vec out : list A) : Prop :=
  length out = length tied /\
  forall i, (i < length tied)%nat ->
    nth_error out i = expected_at tied fixed vec out i.

(** A dimension is free when it has neither a fixed value nor a tie. *)
Definition free_dim {A} (tied : list (option nat)) (fixed : list (option A))
  (i : nat) : bool :=
  match nth_error fixed i, nth_error tied i with
  | Some None, Some None => true
  | _, _ => false
  end.

Local Open Scope R_scope.

(** ** Module-level constants *)

(** Modelled from the spec: the seven lattice-system names imported from
    [gflownet.utils.crystals.constants], a module that is not among the
    sources; the spec enumerates them as triclinic, monoclinic,
    orthorhombic, tetragonal, hexagonal, rhombohedral and cubic. *)
Definition TRICLINIC : string := "triclinic".
Definition MONOCLINIC : string := "monoclinic".
Definition ORTHORHOMBIC : string := "orthorhombic".
Definition TETRAGONAL : string := "tetragonal".
Definition HEXAGONAL : string := "hexagonal".
Definition RHOMBOHEDRAL : string := "rhombohedral".
Definition CUBIC : string := "cubic".

Definition lattice_systems : list string :=
  [TRICLINIC; MONOCLINIC; ORTHORHOMBIC; TETRAGONAL; HEXAGONAL;
   RHOMBOHEDRAL; CUBIC].

(** 3x3 matrices as lists of rows. *)
Definition matrix : Type := list (list R).

Definition mat_get (m : matrix) (i j : nat) : R := nth j (nth i m []) 0.

Definition mat_scale (k : R) (m : matrix) : matrix := map (map (Rmult k)) m.

Definition mat_add (m1 m2 : matrix) : matrix :=
  map (fun rows => map (fun xy => fst xy + snd xy)
                       (combine (fst rows) (snd rows)))
      (combine m1 m2).

Definition B1 : matrix := [[0; 1; 0]; [1; 0; 0]; [0; 0; 0]].
Definition B2 : matrix := [[0; 0; 1]; [0; 0; 0]; [1; 0; 0]].
Definition B3 : matrix := [[0; 0; 0]; [0; 0; 1]; [0; 1; 0]].
Definition B4 : matrix := [[1; 0; 0]; [0; -1; 0]; [0; 0; 0]].
Definition B5 : matrix := [[1; 0; 0]; [0; 1; 0]; [0; 0; -2]].
Definition B6 : matrix := [[1; 0; 0]; [0; 1; 0]; [0; 0; 1]].

Definition rad2deg (x : R) : R := x * (180 / PI).
Definition deg2rad (x : R) : R := x * (PI / 180).

(** [self.min_projection_values] and [self.max_projection_values]: set
    once in [__init__] and never reassigned. *)
Definition min_projection_values : list R :=
  [-3 / 2; -3 / 2; -3 / 2; -9 / 2; -3; -3 / 2].
Definition max_projection_values : list R :=
  [3 / 2; 3 / 2; 3 / 2; 9 / 2; 3; 7].

(** A positional argument as the callee sees it: a float or a list of
    floats. *)
Inductive pyval : Type :=
| PyFloat (x : R)
| PyList (xs : list R).

(** A call that unpacks the list [args] into the positional arguments
    of a method [f(self, p)] with one positional parameter: any other
    number of arguments is a [TypeError]. *)
Definition call_with_star {B} (f : pyval -> result B) (args : list R)
  : result B :=
  match args with
  | [x] => f (PyFloat x)
  | _ => Raise TypeError
  end.

(** [copy] of [gflownet.utils.common] on a list is [deepcopy]: the same
    value in a fresh object. *)
Definition copy {A} (x : list A) : list A := x.

(** ** The environment

    External collaborators are parameters of the development: the
    continuous hypercube engine ([ContinuousCube], whose [__init__] and
    [_step] the class calls through [super()]), scipy's [expm] and
    [logm], and Python's [float] and float formatting. *)

Section Environment.

Variable CubeData : Type.
Variable Action : Type.
Variable Kwargs : Type.

(** The attributes of [self] the class reads or writes; [cube_data]
    stands for whatever else the parent class keeps. *)
Record Env : Type := mkEnv {
  lattice_system : string;
  ignored_dims : list bool;
  projection_tied_values : list (option nat);
  projection_fixed_values : list (option R);
  lattice_params_tied_values : list (option nat);
  lattice_params_fixed_values : list (option R);
  state : list R;
  cube_data : CubeData
}.

Definition set_lattice_system_attr (env : Env) (name : string) : Env :=
  mkEnv name (ignored_dims env)
    (projection_tied_values env) (projection_fixed_values env)
    (lattice_params_tied_values env) (lattice_params_fixed_values env)
    (state env) (cube_data env).

Definition set_constraint_attrs (env : Env) (ign : list bool)
  (ptied : list (option nat)) (pfixed : list (option R))
  (ltied : list (option nat)) (lfixed : list (option R)) : Env :=
  mkEnv (lattice_system env) ign ptied pfixed ltied lfixed
    (state env) (cube_data env).

Definition set_state_attr (env : Env) (s : list R) : Env :=
  mkEnv (lattice_system env) (ignored_dims env)
    (projection_tied_values env) (projection_fixed_values env)
    (lattice_params_tied_values env) (lattice_params_fixed_values env)
    s (cube_data env).

Definition set_cube_attrs (env : Env) (s : list R) (data : CubeData)
  : Env :=
  mkEnv (lattice_system env) (ignored_dims env)
    (projection_tied_values env) (projection_fixed_values env)
    (lattice_params_tied_values env) (lattice_params_fixed_values env)
    s data.

(** [ContinuousCube.__init__(n_dim=6, **kwargs)]: yields the initial
    state, the cube's own [ignored_dims] and its private data. *)
Variable cube_init : Kwargs -> result (list R * list bool * CubeData).

(** [ContinuousCube._step(action, backward)]: returns
    [(state, action, valid)]; of [self] it may update the state and
    its private data, never the lattice system or the tables. *)
Variable cube_step :
  Env -> Action -> bool -> (list R * Action * bool) * (list R * CubeData).

Variable expm : matrix -> matrix.
(** [logm(j, disp=False)] returns the logarithm and an error estimate. *)
Variable logm : matrix -> matrix * R.
Variable py_float : string -> result R.
Variable format_float : R -> string.

(** [_get_state]: the given state, or the current one when [None]. *)
Definition _get_state (env : Env) (s : option (list R)) : list R :=
  match s with
  | Some s' => s'
  | None => copy (state env)
  end.

Definition _state2projection (env : Env) (s : option (list R)) : list R :=
  let s := _get_state env s in
  map (fun t : R * R * R =>
         let '(s, min_proj_v, max_proj_v) := t in
         min_proj_v + s * (max_proj_v - min_proj_v))
      (zip3 s min_projection_values max_projection_values).

Definition _projection2state (projection : list R) : list R :=
  map (fun t : R * R * R =>
         let '(proj, min_proj_v, max_proj_v) := t in
         (proj - min_proj_v) / (max_proj_v - min_proj_v))
      (zip3 projection min_projection_values max_projection_values).

Definition _projection2lattice (projection : list R) : result (list R) :=
  match projection with
  | [k1; k2; k3; k4; k5; k6] =>
      let s :=
        mat_add (mat_add (mat_add (mat_add (mat_add
          (mat_scale k1 B1) (mat_scale k2 B2)) (mat_scale k3 B3))
          (mat_scale k4 B4)) (mat_scale k5 B5)) (mat_scale k6 B6) in
      let j := expm (mat_scale 2 s) in
      let a := sqrt (mat_get j 0 0) in
      let b := sqrt (mat_get j 1 1) in
      let c := sqrt (mat_get j 2 2) in
      let alpha := rad2deg (acos (mat_get j 1 2 / (b * c))) in
      let beta := rad2deg (acos (mat_get j 0 2 / (a * c))) in
      let gamma := rad2deg (acos (mat_get j 0 1 / (a * b))) in
      Ok [a; b; c; alpha; beta; gamma]
  | _ => Raise (ValueError "wrong number of values to unpack (expected 6)")
  end.

Definition _lattice2projection (lattice_params : pyval)
  : result (list R) :=
  match lattice_params with
  | PyFloat _ => Raise TypeError
  | PyList [a; b; c; alpha; beta; gamma] =>
      let ab_cos_gamma := a * b * cos (deg2rad gamma) in
      let ac_cos_beta := a * c * cos (deg2rad beta) in
      let bc_cos_alpha := b * c * cos (deg2rad alpha) in
      let j : matrix :=
        [[a ^ 2; ab_cos_gamma; ac_cos_beta];
         [ab_cos_gamma; b ^ 2; bc_cos_alpha];
         [ac_cos_beta; bc_cos_alpha; c ^ 2]] in
      let '(s, error) := logm j in
      if Rgt_dec error 1e-9
      then Raise (ValueError "logm error larger than 1e-9")
      else
        let s := map (map (fun x => x / 2)) s in
        let k1 := mat_get s 0 1 in
        let k2 := mat_get s 0 2 in
        let k3 := mat_get s 1 2 in
        let k6 := (mat_get s 0 0 + mat_get s 1 1 + mat_get s 2 2) / 3 in
        let k5 := (mat_get s 0 0 + mat_get s 1 1) / 2 - k6 in
        let k4 := mat_get s 0 0 - (k5 + k6) in
        Ok [k1; k2; k3; k4; k5; k6]
  | PyList _ =>
      Raise (ValueError "wrong number of values to unpack (expected 6)")
  end.

Definition apply_projection_constraints (env : Env)
  (projection_vector : list R) : result (list R) :=
  apply_constraints (projection_tied_values env)
    (projection_fixed_values env) projection_vector.

Definition apply_lattice_constraints (env : Env)
  (lattice_params : list R) : result (list R) :=
  apply_constraints (lattice_params_tied_values env)
    (lattice_params_fixed_values env) lattice_params.

Definition state2lattice (env : Env) (s : option (list R))
  : result (list (list R)) :=
  let s := _get_state env s in
  let projection_vector := _state2projection env (Some s) in
  projection_vector <- apply_projection_constraints env projection_vector ;;
  lattice_params <- _projection2lattice projection_vector ;;
  constrained <- apply_lattice_constraints env lattice_params ;;
  match constrained with
  | [a; b; c; alpha; beta; gamma] => Ok [[a; b; c]; [alpha; beta; gamma]]
  | _ => Raise (ValueError "wrong number of values to unpack (expected 6)")
  end.

Definition not_a_valid_lattice_system (name : string) : exn :=
  ValueError (name ++ " is not a valid lattice system").

(** [_setup_constraints]: every branch assigns the five tables; the
    final [else] raises before anything is assigned. *)
Definition _setup_constraints (env : Env) : result Env :=
  if (lattice_system env =? TRICLINIC)%string then
    Ok (set_constraint_attrs env
          (repeat false 6)
          (repeat None 6)
          (repeat None 6)
          (repeat None 6)
          (repeat None 6))
  else if (lattice_system env =? MONOCLINIC)%string then
    Ok (set_constraint_attrs env
          [true; false; true; false; false; false]
          (repeat None 6)
          [Some 0; None; Some 0; None; None; None]
          (repeat None 6)
          [None; None; None; Some 90; None; Some 90])
  else if (lattice_system env =? ORTHORHOMBIC)%string then
    Ok (set_constraint_attrs env
          [true; true; true; false; false; false]
          (repeat None 6)
          [Some 0; Some 0; Some 0; None; None; None]
          (repeat None 6)
          [None; None; None; Some 90; Some 90; Some 90])
  else if (lattice_system env =? TETRAGONAL)%string then
    Ok (set_constraint_attrs env
          [true; true; true; true; false; false]
          (repeat None 6)
          [Some 0; Some 0; Some 0; Some 0; None; None]
          [None; Some 0%nat; None; None; None; None]
          [None; None; None; Some 90; Some 90; Some 90])
  else if (lattice_system env =? HEXAGONAL)%string then
    Ok (set_constraint_attrs env
          [true; true; true; true; false; false]
          (repeat None 6)
          [Some (- ln 3 / 4); Some 0; Some 0; Some 0; None; None]
          [None; Some 0%nat; None; None; None; None]
          [None; None; None; Some 90; Some 90; Some 120])
  else if (lattice_system env =? RHOMBOHEDRAL)%string then
    Ok (set_constraint_attrs env
          [false; true; true; true; true; false]
          [None; Some 0%nat; Some 0%nat; None; None; None]
          [None; None; None; Some 0; Some 0; None]
          [None; Some 0%nat; Some 0%nat; None; Some 3%nat; Some 3%nat]
          (repeat None 6))
  else if (lattice_system env =? CUBIC)%string then
    Ok (set_constraint_attrs env
          [true; true; true; true; true; false]
          (repeat None 6)
          [Some 0; Some 0; Some 0; Some 0; Some 0; None]
          [None; Some 0%nat; Some 0%nat; None; None; None]
          [None; None; None; Some 90; Some 90; Some 90])
  else Raise (not_a_valid_lattice_system (lattice_system env)).

(** [set_lattice_system]: the name is stored first, so it stays stored
    when [_setup_constraints] raises. *)
Definition set_lattice_system (env : Env) (name : string)
  : result unit * Env :=
  let env := set_lattice_system_attr env name in
  match _setup_constraints env with
  | Ok env' => (Ok tt, env')
  | Raise e => (Raise e, env)
  end.

(** [__init__]: the tables do not exist before [_setup_constraints]
    runs (empty lists stand for the missing attributes); when it
    raises, no object is built. *)
Definition __init__ (name : string) (kwargs : Kwargs) : result Env :=
  cube <- cube_init kwargs ;;
  let '(source, ign, data) := cube in
  _setup_constraints (mkEnv name ign [] [] [] [] source data).

Definition _step (env : Env) (action : Action) (backward : bool)
  : result (list R * Action * bool) * Env :=
  let '((s, action, valid), (cube_state, data)) :=
    cube_step env action backward in
  let env := set_cube_attrs env cube_state data in
  let projection_vector := _state2projection env (Some s) in
  match apply_projection_constraints env projection_vector with
  | Raise e => (Raise e, env)
  | Ok projection_vector =>
      let s := _projection2state projection_vector in
      let env := set_state_attr env (copy s) in
      (Ok (state env, action, valid), env)
  end.

Definition parameters2state (parameters lengths angles : option (list R))
  : result (list R) :=
  parameters <-
    match parameters with
    | Some p => Ok p
    | None =>
        match lengths, angles with
        | Some l, Some a => Ok (l ++ a)
        | _, _ => Raise (ValueError "Cannot determine all six parameters.")
        end
    end ;;
  projection_vector <- _lattice2projection (PyList parameters) ;;
  Ok (_projection2state projection_vector).

Definition state2readable (env : Env) (s : option (list R))
  : result string :=
  let s := _get_state env s in
  lattice <- state2lattice env (Some s) ;;
  match lattice with
  | [[a; b; c]; [alpha; beta; gamma]] =>
      Ok ("(" ++ format_float a ++ ", " ++ format_float b ++ ", "
          ++ format_float c ++ "), (" ++ format_float alpha ++ ", "
          ++ format_float beta ++ ", " ++ format_float gamma ++ ")")%string
  | _ => Raise (ValueError "wrong number of values to unpack")
  end.

Definition readable2state (readable : string) : result (list R) :=
  let readable :=
    fold_left (fun r c => remove_char c r)
              ["("%char; ")"%char; " "%char] readable in
  let values := split_on ","%char readable in
  values <- map_result py_float values ;;
  projection_vector <- call_with_star _lattice2projection values ;;
  Ok (_projection2state projection_vector).

Definition is_valid (env : Env) (s : option (list R)) : bool :=
  let s := _get_state env s in
  let projection_vector := _state2projection env (Some s) in
  forallb (fun t : R * R * R =>
             let '(p, min_p, max_p) := t in
             if Rlt_dec p min_p then false
             else if Rgt_dec p max_p then false
             else true)
          (zip3 projection_vector
                min_projection_values max_projection_values).

End Environment.

Arguments lattice_system {CubeData} _.
Arguments ignored_dims {CubeData} _.
Arguments projection_tied_values {CubeData} _.
Arguments projection_fixed_values {CubeData} _.
Arguments lattice_params_tied_values {CubeData} _.
Arguments lattice_params_fixed_values {CubeData} _.
Arguments state {CubeData} _.
Arguments cube_data {CubeData} _.

Arguments _get_state {CubeData} env s.
Arguments _state2projection {CubeData} env s.
Arguments apply_projection_constraints {CubeData} env projection_vector.
Arguments apply_lattice_constraints {CubeData} env lattice_params.
Arguments state2lattice {CubeData} expm env s.
Arguments _setup_constraints {CubeData} env.
Arguments set_lattice_system {CubeData} env name.
Arguments set_lattice_system_attr {CubeData} env name.
Arguments set_constraint_attrs {CubeData} env ign ptied pfixed ltied lfixed.
Arguments set_state_attr {CubeData} env s.
Arguments set_cube_attrs {CubeData} env s data.
Arguments __init__ {CubeData Kwargs} cube_init name kwargs.
Arguments _step {CubeData Action} cube_step env action backward.
Arguments state2readable {CubeData} expm format_float env s.
Arguments is_valid {CubeData} env s.

(** ** Configured environments *)

(** The tables of [env] are those [_setup_constraints] builds for the
    lattice system [name]: running it again for [name] changes
    nothing. *)
Definition constrained_by {CubeData} (name : string) (env : Env CubeData)
  : Prop :=
  _setup_constraints (set_lattice_system_attr env name)
  = Ok (set_lattice_system_attr env name).

(** The precondition of constraint application: four tables of length
    six whose tie targets have lower indices. *)
Definition tables_ordered {CubeData} (env : Env CubeData) : Prop :=
  length (projection_tied_values env) = 6%nat /\
  length (projection_fixed_values env) = 6%nat /\
  length (lattice_params_tied_values env) = 6%nat /\
  length (lattice_params_fixed_values env) = 6%nat /\
  tie_targets_lower (projection_tied_values env) = true /\
  tie_targets_lower (lattice_params_tied_values env) = true.

(** ** Concrete collaborators, used to run the model

    A hypercube engine without private data whose [__init__] starts
    from a given source state, and whose [_step] rejects every action,
    leaving the state untouched. *)
Definition source_cube_init (source : list R)
  : unit -> result (list R * list bool * unit) :=
  fun _ => Ok (source, repeat false 6, tt).

Definition rejecting_cube_step (env : Env unit) (action : unit)
  (backward : bool) : (list R * unit * bool) * (list R * unit) :=
  ((state env, action, false), (state env, tt)).

(** An engine that accepts every action and moves to [target]. *)
Definition accepting_cube_step (target : list R) (env : Env unit)
  (action : unit) (backward : bool)
  : (list R * unit * bool) * (list R * unit) :=
  ((target, action, true), (target, tt)).

(** The environment [__init__] builds on top of [source_cube_init]; the
    fallback branch is the bare record, for names [__init__] rejects. *)
Definition env_of (name : string) (source : list R) : Env unit :=
  match __init__ (source_cube_init source) name tt with
  | Ok env => env
  | Raise _ => mkEnv name [] [] [] [] [] source tt
  end.

(** ** The step pipeline over binary64

    Whether a committed state satisfies a constraint table is a matter
    of equality between computed floating-point values, and the affine
    maps between state space and projection space round. The part of
    the class that [_step] runs is therefore embedded a second time
    over [float], Rocq's primitive IEEE 754 binary64 numbers with
    round-to-nearest-even, which is the arithmetic of Python's [float]
    and of [numpy.float64] for [+], [-], [*] and [/]. The integers
    among the constants ([-3], [3], [7], [0], [90], [120]) are exact in
    binary64, so the conversions Python inserts around them lose
    nothing. The constraint loop is the one above, at element type
    [float]. *)

Module Binary64.

Local Open Scope float_scope.

(** [numpy.log(3)], taken as the binary64 number nearest to ln 3,
    printed [1.0986122886681098] (what [math.log(3)] returns too). *)
Definition log_3 : float := 0x1.193ea7aad030bp+0.

Definition min_projection_values : list float :=
  [-3 / 2; -3 / 2; -3 / 2; -9 / 2; -3; -3 / 2].
Definition max_projection_values : list float :=
  [3 / 2; 3 / 2; 3 / 2; 9 / 2; 3; 7].

Section Environment.

Variable CubeData : Type.
Variable Action : Type.
Variable Kwargs : Type.

Record Env : Type := mkEnv {
  lattice_system : string;
  ignored_dims : list bool;
  projection_tied_values : list (option nat);
  projection_fixed_values : list (option float);
  lattice_params_tied_values : list (option nat);
  lattice_params_fixed_values : list (option float);
  state : list float;
  cube_data : CubeData
}.

Definition set_lattice_system_attr (env : Env) (name : string) : Env :=
  mkEnv name (ignored_dims env)
    (projection_tied_values env) (projection_fixed_values env)
    (lattice_params_tied_values env) (lattice_params_fixed_values env)
    (state env) (cube_data env).

Definition set_constraint_attrs (env : Env) (ign : list bool)
  (ptied : list (option nat)) (pfixed : list (option float))
  (ltied : list (option nat)) (lfixed : list (option float)) : Env :=
  mkEnv (lattice_system env) ign ptied pfixed ltied lfixed
    (state env) (cube_data env).

Definition set_state_attr (env : Env) (s : list float) : Env :=
  mkEnv (lattice_system env) (ignored_dims env)
    (projection_tied_values env) (projection_fixed_values env)
    (lattice_params_tied_values env) (lattice_params_fixed_values env)
    s (cube_data env).

Definition set_cube_attrs (env : Env) (s : list float) (data : CubeData)
  : Env :=
  mkEnv (lattice_system env) (ignored_dims env)
    (projection_tied_values env) (projection_fixed_values env)
    (lattice_params_tied_values env) (lattice_params_fixed_values env)
    s data.

(** The hypercube engine, as in the real-valued embedding. *)
Variable cube_init : Kwargs -> result (list float * list bool * CubeData).

Variable cube_step :
  Env -> Action -> bool
  -> (list float * Action * bool) * (list float * CubeData).

Definition _get_state (env : Env) (s : option (list float)) : list float :=
  match s with
  | Some s' => s'
  | None => copy (state env)
  end.

Definition _state2projection (env : Env) (s : option (list float))
  : list float :=
  let s := _get_state env s in
  map (fun t : float * float * float =>
         let '(s, min_proj_v, max_proj_v) := t in
         min_proj_v + s * (max_proj_v - min_proj_v))
      (zip3 s min_projection_values max_projection_values).

(** The six divisors [max_proj_v - min_proj_v] are the non-zero
    constants 3, 3, 3, 9, 6 and 8.5, so the division never meets
    Python's [ZeroDivisionError]. *)
Definition _projection2state (projection : list float) : list float :=
  map (fun t : float * float * float =>
         let '(proj, min_proj_v, max_proj_v) := t in
         (proj - min_proj_v) / (max_proj_v - min_proj_v))
      (zip3 projection min_projection_values max_projection_values).

Definition apply_projection_constraints (env : Env)
  (projection_vector : list float) : result (list float) :=
  apply_constraints (projection_tied_values env)
    (projection_fixed_values env) projection_vector.

Definition _setup_constraints (env : Env) : result Env :=
  if (lattice_system env =? TRICLINIC)%string then
    Ok (set_constraint_attrs env
          (repeat false 6)
          (repeat None 6)
          (repeat None 6)
          (repeat None 6)
          (repeat None 6))
  else if (lattice_system env =? MONOCLINIC)%string then
    Ok (set_constraint_attrs env
          [true; false; true; false; false; false]
          (repeat None 6)
          [Some 0; None; Some 0; None; None; None]
          (repeat None 6)
          [None; None; None; Some 90; None; Some 90])
  else if (lattice_system env =? ORTHORHOMBIC)%string then
    Ok (set_constraint_attrs env
          [true; true; true; false; false; false]
          (repeat None 6)
          [Some 0; Some 0; Some 0; None; None; None]
          (repeat None 6)
          [None; None; None; Some 90; Some 90; Some 90])
  else if (lattice_system env =? TETRAGONAL)%string then
    Ok (set_constraint_attrs env
          [true; true; true; true; false; false]
          (repeat None 6)
          [Some 0; Some 0; Some 0; Some 0; None; None]
          [None; Some 0%nat; None; None; None; None]
          [None; None; None; Some 90; Some 90; Some 90])
  else if (lattice_system env =? HEXAGONAL)%string then
    Ok (set_constraint_attrs env
          [true; true; true; true; false; false]
          (repeat None 6)
          [Some (- log_3 / 4); Some 0; Some 0; Some 0; None; None]
          [None; Some 0%nat; None; None; None; None]
          [None; None; None; Some 90; Some 90; Some 120])
  else if (lattice_system env =? RHOMBOHEDRAL)%string then
    Ok (set_constraint_attrs env
          [false; true; true; true; true; false]
          [None; Some 0%nat; Some 0%nat; None; None; None]
          [None; None; None; Some 0; Some 0; None]
          [None; Some 0%nat; Some 0%nat; None; Some 3%nat; Some 3%nat]
          (repeat None 6))
  else if (lattice_system env =? CUBIC)%string then
    Ok (set_constraint_attrs env
          [true; true; true; true; true; false]
          (repeat None 6)
          [Some 0; Some 0; Some 0; Some 0; Some 0; None]
          [None; Some 0%nat; Some 0%nat; None; None; None]
          [None; None; None; Some 90; Some 90; Some 90])
  else Raise (not_a_valid_lattice_system (lattice_system env)).

Definition __init__ (name : string) (kwargs : Kwargs) : result Env :=
  cube <- cube_init kwargs ;;
  let '(source, ign, data) := cube in
  _setup_constraints (mkEnv name ign [] [] [] [] source data).

Definition _step (env : Env) (action : Action) (backward : bool)
  : result (list float * Action * bool) * Env :=
  let '((s, action, valid), (cube_state, data)) :=
    cube_step env action backward in
  let env := set_cube_attrs env cube_state data in
  let projection_vector := _state2projection env (Some s) in
  match apply_projection_constraints env projection_vector with
  | Raise e => (Raise e, env)
  | Ok projection_vector =>
      let s := _projection2state projection_vector in
      let env := set_state_attr env (copy s) in
      (Ok (state env, action, valid), env)
  end.

End Environment.

Arguments lattice_system {CubeData} _.
Arguments ignored_dims {CubeData} _.
Arguments projection_tied_values {CubeData} _.
Arguments projection_fixed_values {CubeData} _.
Arguments lattice_params_tied_values {CubeData} _.
Arguments lattice_params_fixed_values {CubeData} _.
Arguments state {CubeData} _.
Arguments cube_data {CubeData} _.

Arguments _get_state {CubeData} env s.
Arguments _state2projection {CubeData} env s.
Arguments apply_projection_constraints {CubeData} env projection_vector.
Arguments _setup_constraints {CubeData} env.
Arguments set_lattice_system_attr {CubeData} env name.
Arguments set_constraint_attrs {CubeData} env ign ptied pfixed ltied lfixed.
Arguments set_state_attr {CubeData} env s.
Arguments set_cube_attrs {CubeData} env s data.
Arguments __init__ {CubeData Kwargs} cube_init name kwargs.
Arguments _step {CubeData Action} cube_step env action backward.

(** The tables of [env] are those of the lattice system [name]. *)
Definition constrained_by {CubeData} (name : string) (env : Env CubeData)
  : Prop :=
  _setup_constraints (set_lattice_system_attr env name)
  = Ok (set_lattice_system_attr env name).

(** Concrete collaborators, used to run the model: an engine without
    private data that starts from [source]; one [_step] rejects every
    action and leaves the state untouched, the other moves to [target]
    on every action. *)
Definition source_cube_init (source : list float)
  : unit -> result (list float * list bool * unit) :=
  fun _ => Ok (source, repeat false 6, tt).

Definition rejecting_cube_step (env : Env unit) (action : unit)
  (backward : bool) : (list float * unit * bool) * (list float * unit) :=
  ((state env, action, false), (state env, tt)).

Definition accepting_cube_step (target : list float) (env : Env unit)
  (action : unit) (backward : bool)
  : (list float * unit * bool) * (list float * unit) :=
  ((target, action, true), (target, tt)).

Definition env_of (name : string) (source : list float) : Env unit :=
  match __init__ (source_cube_init source) name tt with
  | Ok env => env
  | Raise _ => mkEnv name [] [] [] [] [] source tt
  end.

End Binary64.

(** A vector [p] satisfies a constraint table when it has one entry
    per table row, every dimension with a fixed value holds that
    value, and every other dimension with a tie holds the value of its
    tie target. *)
Definition satisfies_table {A} (tied : list (option nat))
  (fixed : list (option A)) (p : list A) : Prop :=
  length p = length tied /\
  (forall i value,
      nth_error fixed i = Some (Some value) ->
      nth_error p i = Some value) /\
  (forall i tied_idx,
      nth_error fixed i = Some None ->
      nth_error tied i = Some (Some tied_idx) ->
      nth_error p i = nth_error p tied_idx).

(** ** The linear environment ([LatticeParameters])

    The first class of the file maps each state coordinate linearly to
    a length or an angle, and keeps its constraints as attributes set
    by [_setup_constraints]: an index attribute per parameter
    ([a_idx], ...), and, for a fixed angle, its value ([alpha], ...)
    and state value ([alpha_state], ...). An attribute that was never
    assigned is [None] at the outer [option]. Methods that assign
    attributes before they may raise thread the environment. *)

Module LatticeParameters.

Inductive error : Type :=
| IndexError
| TypeError
| ValueError (msg : string)
| ZeroDivisionError
| NotImplementedError
| AttributeError.

Inductive result (A : Type) : Type :=
| Ok (a : A)
| Raise (e : error).

Arguments Ok {A} a.
Arguments Raise {A} e.

Definition bind {A B} (m : result A) (k : A -> result B) : result B :=
  match m with
  | Ok a => k a
  | Raise e => Raise e
  end.

Definition getitem {A} (l : list A) (i : nat) : result A :=
  match nth_error l i with
  | Some x => Ok x
  | None => Raise IndexError
  end.

(** [l[i] = x] on a list, for a non-negative index. *)
Fixpoint setitem {A} (l : list A) (i : nat) (x : A) : result (list A) :=
  match l, i with
  | [], _ => Raise IndexError
  | _ :: l', O => Ok (x :: l')
  | y :: l', S i' => bind (setitem l' i' x) (fun r => Ok (y :: r))
  end.

(** The six parameter names, in the order of [PARAMETER_NAMES]; the
    methods below are only ever called with one of them. *)
Inductive param : Type :=
| P_a | P_b | P_c | P_alpha | P_beta | P_gamma.

Definition LENGTH_PARAMETER_NAMES : list param := [P_a; P_b; P_c].
Definition ANGLE_PARAMETER_NAMES : list param := [P_alpha; P_beta; P_gamma].
Definition PARAMETER_NAMES : list param :=
  LENGTH_PARAMETER_NAMES ++ ANGLE_PARAMETER_NAMES.

Definition param_eqb (p q : param) : bool :=
  match p, q with
  | P_a, P_a | P_b, P_b | P_c, P_c
  | P_alpha, P_alpha | P_beta, P_beta | P_gamma, P_gamma => true
  | _, _ => false
  end.

Definition is_length (p : param) : bool :=
  existsb (param_eqb p) LENGTH_PARAMETER_NAMES.

Definition is_angle (p : param) : bool :=
  existsb (param_eqb p) ANGLE_PARAMETER_NAMES.

(** The three attributes named after a parameter [p]: [p] itself,
    [p_idx] and [p_state]. *)
Record ParamAttrs : Type := mkParamAttrs {
  attr_value : option R;
  attr_idx : option (option nat);
  attr_state : option R
}.

Definition no_attrs : ParamAttrs := mkParamAttrs None None None.

Section Environment.

Variable CubeData : Type.
Variable Action : Type.
Variable Kwargs : Type.

Record Env : Type := mkEnv {
  lattice_system : string;
  min_length : R;
  max_length : R;
  length_range : R;
  min_angle : R;
  max_angle : R;
  angle_range : R;
  attrs : param -> ParamAttrs;
  ignored_dims : list bool;
  state : list R;
  source : list R;
  cube_data : CubeData
}.

Definition with_lattice_system (env : Env) (name : string) : Env :=
  mkEnv name (min_length env) (max_length env) (length_range env)
    (min_angle env) (max_angle env) (angle_range env) (attrs env)
    (ignored_dims env) (state env) (source env) (cube_data env).

Definition with_attrs (env : Env) (p : param) (pa : ParamAttrs) : Env :=
  mkEnv (lattice_system env) (min_length env) (max_length env)
    (length_range env) (min_angle env) (max_angle env) (angle_range env)
    (fun q => if param_eqb q p then pa else attrs env q)
    (ignored_dims env) (state env) (source env) (cube_data env).

Definition with_ignored_dims (env : Env) (ign : list bool) : Env :=
  mkEnv (lattice_system env) (min_length env) (max_length env)
    (length_range env) (min_angle env) (max_angle env) (angle_range env)
    (attrs env) ign (state env) (source env) (cube_data env).

Definition with_state (env : Env) (s : list R) (data : CubeData) : Env :=
  mkEnv (lattice_system env) (min_length env) (max_length env)
    (length_range env) (min_angle env) (max_angle env) (angle_range env)
    (attrs env) (ignored_dims env) s (source env) data.

(** Attribute assignments. *)
Definition set_value (env : Env) (p : param) (x : R) : Env :=
  with_attrs env p
    (mkParamAttrs (Some x) (attr_idx (attrs env p)) (attr_state (attrs env p))).

Definition set_idx (env : Env) (p : param) (i : option nat) : Env :=
  with_attrs env p
    (mkParamAttrs (attr_value (attrs env p)) (Some i)
                  (attr_state (attrs env p))).

Definition set_state_value (env : Env) (p : param) (x : R) : Env :=
  with_attrs env p
    (mkParamAttrs (attr_value (attrs env p)) (attr_idx (attrs env p))
                  (Some x)).

Definition _statevalue2length (env : Env) (value : R) : R :=
  min_length env + value * length_range env.

Definition _length2statevalue (env : Env) (length : R) : result R :=
  if Req_dec_T (length_range env) 0 then Raise ZeroDivisionError
  else Ok ((length - min_length env) / length_range env).

Definition _statevalue2angle (env : Env) (value : R) : R :=
  min_angle env + value * angle_range env.

Definition _angle2statevalue (env : Env) (angle : R) : result R :=
  if Req_dec_T (angle_range env) 0 then Raise ZeroDivisionError
  else Ok ((angle - min_angle env) / angle_range env).

(** [getattr(self, param_idx)] when the attribute exists, else [None]. *)
Definition _get_index_of_param (env : Env) (p : param) : option nat :=
  match attr_idx (attrs env p) with
  | Some i => i
  | None => None
  end.

(** [state[i]] where [i] may be [None]. *)
Definition getitem_opt (s : list R) (i : option nat) : result R :=
  match i with
  | Some i => getitem s i
  | None => Raise TypeError
  end.

Definition _get_param (env : Env) (s : list R) (p : param) : result R :=
  match attr_value (attrs env p) with
  | Some x => Ok x
  | None =>
      if is_length p then
        bind (getitem_opt s (_get_index_of_param env p))
             (fun x => Ok (_statevalue2length env x))
      else if is_angle p then
        bind (getitem_opt s (_get_index_of_param env p))
             (fun x => Ok (_statevalue2angle env x))
      else Raise (ValueError "not a valid lattice parameter")
  end.

Definition _set_param (env : Env) (s : list R) (p : param) (value : R)
  : result (list R) :=
  match _get_index_of_param env p with
  | Some param_idx =>
      if is_length p then
        bind (_length2statevalue env value) (setitem s param_idx)
      else if is_angle p then
        bind (_angle2statevalue env value) (setitem s param_idx)
      else Raise (ValueError "not a valid lattice parameter")
  | None => Ok s
  end.

(** Methods that assign attributes and may raise afterwards: the
    environment is threaded, and an exception leaves it as it was when
    the exception was raised. *)
Definition M (A : Type) : Type := Env -> result A * Env.

Definition ret {A} (x : A) : M A := fun env => (Ok x, env).

Definition raise {A} (e : error) : M A := fun env => (Raise e, env).

Definition bindM {A B} (m : M A) (k : A -> M B) : M B :=
  fun env =>
    match m env with
    | (Ok x, env') => k x env'
    | (Raise e, env') => (Raise e, env')
    end.

Definition assign (f : Env -> Env) : M unit := fun env => (Ok tt, f env).

Definition read {A} (f : Env -> result A) : M A := fun env => (f env, env).

Notation "m1 ;; m2" := (bindM m1 (fun _ => m2))
  (at level 61, right associativity).

Definition name_in (env : Env) (names : list string) : bool :=
  existsb (String.eqb (lattice_system env)) names.

(** [self.p_idx = None; self.p = 90.0 (or 120.0);
    self.p_state = self._angle2statevalue(self.p)]. *)
Definition fix_angle (p : param) (x : R) : M unit :=
  assign (fun env => set_idx env p None) ;;
  assign (fun env => set_value env p x) ;;
  bindM (read (fun env => _angle2statevalue env x))
        (fun sv => assign (fun env => set_state_value env p sv)).

Definition _setup_constraints : M unit :=
  fun env =>
    bindM
      (if name_in env [CUBIC; RHOMBOHEDRAL] then
         assign (fun env => set_idx env P_a (Some 0%nat)) ;;
         assign (fun env => set_idx env P_b (Some 0%nat)) ;;
         assign (fun env => set_idx env P_c (Some 0%nat)) ;;
         ret [false; true; true]
       else if name_in env [HEXAGONAL; TETRAGONAL] then
         assign (fun env => set_idx env P_a (Some 0%nat)) ;;
         assign (fun env => set_idx env P_b (Some 0%nat)) ;;
         assign (fun env => set_idx env P_c (Some 2%nat)) ;;
         ret [false; true; false]
       else if name_in env [MONOCLINIC; ORTHORHOMBIC; TRICLINIC] then
         assign (fun env => set_idx env P_a (Some 0%nat)) ;;
         assign (fun env => set_idx env P_b (Some 1%nat)) ;;
         assign (fun env => set_idx env P_c (Some 2%nat)) ;;
         ret [false; false; false]
       else
         raise (ValueError
                  (lattice_system env ++ " is not a valid lattice system")))
      (fun lengths_ignored_dims =>
         bindM
           (if name_in env [CUBIC; ORTHORHOMBIC; TETRAGONAL] then
              fix_angle P_alpha 90 ;;
              fix_angle P_beta 90 ;;
              fix_angle P_gamma 90 ;;
              ret [true; true; true]
            else if (lattice_system env =? HEXAGONAL)%string then
              fix_angle P_alpha 90 ;;
              fix_angle P_beta 90 ;;
              fix_angle P_gamma 120 ;;
              ret [true; true; true]
            else if (lattice_system env =? MONOCLINIC)%string then
              fix_angle P_alpha 90 ;;
              assign (fun env => set_idx env P_beta (Some 4%nat)) ;;
              fix_angle P_gamma 90 ;;
              ret [true; false; true]
            else if (lattice_system env =? RHOMBOHEDRAL)%string then
              assign (fun env => set_idx env P_alpha (Some 3%nat)) ;;
              assign (fun env => set_idx env P_beta (Some 3%nat)) ;;
              assign (fun env => set_idx env P_gamma (Some 3%nat)) ;;
              ret [false; true; true]
            else if (lattice_system env =? TRICLINIC)%string then
              assign (fun env => set_idx env P_alpha (Some 3%nat)) ;;
              assign (fun env => set_idx env P_beta (Some 4%nat)) ;;
              assign (fun env => set_idx env P_gamma (Some 5%nat)) ;;
              ret [false; false; false]
            else raise NotImplementedError)
           (fun angles_ignored_dims =>
              assign (fun env =>
                        with_ignored_dims env
                          (lengths_ignored_dims ++ angles_ignored_dims))))
      env.

Definition set_lattice_system (name : string) : M unit :=
  assign (fun env => with_lattice_system env name) ;;
  _setup_constraints.

(** [ContinuousCube.__init__(n_dim=6, **kwargs)]: yields the source
    state, the cube's own [ignored_dims] and its private data; it is
    taken to define none of the attributes named after a parameter. *)
Variable cube_init : Kwargs -> result (list R * list bool * CubeData).

Variable cube_step :
  Env -> Action -> bool -> (list R * Action * bool) * (list R * CubeData).

Definition __init__ (name : string)
  (min_length max_length min_angle max_angle : R) (kwargs : Kwargs)
  : result Env :=
  bind (cube_init kwargs)
       (fun cube =>
          let '(src, ign, data) := cube in
          match _setup_constraints
                  (mkEnv name min_length max_length
                         (max_length - min_length)
                         min_angle max_angle (max_angle - min_angle)
                         (fun _ => no_attrs) ign src src data) with
          | (Ok _, env) => Ok env
          | (Raise e, _) => Raise e
          end).

(** One iteration of the loop of [_step] over
    [enumerate(zip(PARAMETER_NAMES, self.ignored_dims))]. *)
Definition step_dimension (env : Env) (s : list R)
  (item : nat * (param * bool)) : result (list R) :=
  let '(idx, (p, is_ignored)) := item in
  if negb is_ignored then Ok s
  else
    match _get_index_of_param env p with
    | Some param_idx => bind (getitem s param_idx) (setitem s idx)
    | None =>
        match attr_state (attrs env p) with
        | Some x => setitem s idx x
        | None => Raise AttributeError
        end
    end.

Fixpoint step_loop (env : Env) (items : list (nat * (param * bool)))
  (s : list R) : result (list R) :=
  match items with
  | [] => Ok s
  | item :: rest => bind (step_dimension env s item) (step_loop env rest)
  end.

Definition enumerate {A} (l : list A) : list (nat * A) :=
  combine (seq 0 (length l)) l.

(** [_step]: the result carries the environment after a successful
    step; nothing is said of the environment after an exception. *)
Definition _step (env : Env) (action : Action) (backward : bool)
  : result ((list R * Action * bool) * Env) :=
  let '((s, action, valid), (cube_state, data)) :=
    cube_step env action backward in
  bind (step_loop env
          (enumerate (combine PARAMETER_NAMES (ignored_dims env))) s)
       (fun s =>
          let env := with_state env (copy s) data in
          Ok ((state env, action, valid), env)).

Definition _get_state (env : Env) (s : option (list R)) : list R :=
  match s with
  | Some s' => s'
  | None => copy (state env)
  end.

Fixpoint map_result {A B} (f : A -> result B) (xs : list A)
  : result (list B) :=
  match xs with
  | [] => Ok []
  | x :: xs' =>
      bind (f x) (fun y => bind (map_result f xs') (fun ys => Ok (y :: ys)))
  end.

Definition _unpack_lengths_angles (env : Env) (s : option (list R))
  : result (list R * list R) :=
  let s := _get_state env s in
  bind (map_result (_get_param env s) PARAMETER_NAMES)
       (fun values =>
          match values with
          | [a; b; c; alpha; beta; gamma] => Ok ([a; b; c], [alpha; beta; gamma])
          | _ => Raise (ValueError "wrong number of values to unpack")
          end).

Fixpoint set_params (env : Env) (s : list R) (items : list (param * R))
  : result (list R) :=
  match items with
  | [] => Ok s
  | (p, value) :: rest =>
      bind (_set_param env s p value) (fun s => set_params env s rest)
  end.

Definition parameters2state (env : Env)
  (parameters lengths angles : option (list R)) : result (list R) :=
  bind
    match parameters with
    | Some p => Ok p
    | None =>
        match lengths, angles with
        | Some l, Some a => Ok (l ++ a)
        | _, _ => Raise (ValueError "Cannot determine all six parameters.")
        end
    end
    (fun parameters =>
       set_params env (copy (source env))
                  (combine PARAMETER_NAMES parameters)).

(** The constraint attributes of [env] are those [_setup_constraints]
    assigns for its lattice system: running it again returns, and
    changes neither [ignored_dims] nor any attribute named after a
    parameter. *)
Definition configured (env : Env) : Prop :=
  exists env',
    _setup_constraints env = (Ok tt, env') /\
    ignored_dims env' = ignored_dims env /\
    forall p, attrs env' p = attrs env p.

End Environment.

End LatticeParameters.

(** A concrete engine for the linear environment, without private
    data: [__init__] starts from a given source state, [_step] accepts
    every action and moves to [target]. *)
Definition linear_cube_init (src : list R)
  : unit -> LatticeParameters.result (list R * list bool * unit) :=
  fun _ => LatticeParameters.Ok (src, repeat false 6, tt).

Definition linear_cube_step (target : list R)
  (env : LatticeParameters.Env unit) (action : unit) (backward : bool)
  : (list R * unit * bool) * (list R * unit) :=
  ((target, action, true), (target, tt)).

(** The environment [LatticeParameters.__init__] builds with the
    default bounds (lengths 1 to 350, angles 50 to 150) on top of
    [linear_cube_init]. *)
Definition linear_env_of (name : string) (src : list R)
  : LatticeParameters.Env unit :=
  match LatticeParameters.__init__ (linear_cube_init src)
          name 1 350 50 150 tt with
  | LatticeParameters.Ok env => env
  | LatticeParameters.Raise _ =>
      LatticeParameters.mkEnv name 1 350 (350 - 1) 50 150 (150 - 50)
        (fun _ => LatticeParameters.no_attrs) [] src src tt
  end.

(** ** Batches of indices ([gflownet.utils.common.batch_with_rest]) *)

(** The number of values of [range(start, stop, step)] for a non-zero
    step. *)
Definition range_length (start stop step : Z) : Z :=
  if (0 <? step)%Z then
    if (start <? stop)%Z then ((stop - start - 1) / step + 1)%Z else 0%Z
  else
    if (stop <? start)%Z then ((start - stop - 1) / (- step) + 1)%Z else 0%Z.

(** [range(start, stop, step)] as the list of its values; a zero step
    is a [ValueError]. Python integers are unbounded. *)
Definition py_range (start stop step : Z) : result (list Z) :=
  if (step =? 0)%Z then Raise (ValueError "range() arg 3 must not be zero")
  else
    Ok (map (fun k => (start + Z.of_nat k * step)%Z)
            (seq 0 (Z.to_nat (range_length start stop step)))).

(** The integers [lo, lo + 1, ..., hi - 1]. *)
Definition indices (lo hi : Z) : list Z :=
  map (fun k => (lo + Z.of_nat k)%Z) (seq 0 (Z.to_nat (hi - lo))).

Section Batches.

(** [numpy.arange] and [torch.arange] are external: for a pair of
    integer bounds each returns an array of integers or raises an
    exception of the library. Nothing is fixed here about their index
    width or about bounds in the wrong order. *)
Variable LibraryError : Type.
Variable np_arange : Z -> Z -> LibraryError + list Z.
Variable torch_arange : Z -> Z -> LibraryError + list Z.

(** The exception that ends the iteration early: the [ValueError] of
    [range], or whatever [arange] raised. *)
Inductive batch_error : Type :=
| RangeError (e : exn)
| ArangeError (e : LibraryError).

(** The body of the generator's loop over the values of the range:
    the batches yielded, in order, and the exception that ended the
    iteration, if any. *)
Fixpoint yield_batches (stop step : Z) (tensor : bool) (idxs : list Z)
  : list (list Z) * option batch_error :=
  match idxs with
  | [] => ([], None)
  | i :: rest =>
      match (if tensor
             then torch_arange i (Z.min (i + step) stop)
             else np_arange i (Z.min (i + step) stop)) with
      | inr batch =>
          let '(batches, e) := yield_batches stop step tensor rest in
          (batch :: batches, e)
      | inl e => ([], Some (ArangeError e))
      end
  end.

(** The generator, run to its end. *)
Definition batch_with_rest (start stop step : Z) (tensor : bool)
  : list (list Z) * option batch_error :=
  match py_range start stop step with
  | Raise e => ([], Some (RangeError e))
  | Ok idxs => yield_batches stop step tensor idxs
  end.

End Batches.

Arguments RangeError {LibraryError} e.
Arguments ArangeError {LibraryError} e.

(** Concrete array libraries, used to run the model: 64-bit index
    arrays that refuse bounds outside the signed 64-bit range; one
    returns an empty array for bounds in the wrong order, the other
    refuses them. *)
Definition int64 (x : Z) : bool :=
  ((- 2 ^ 63 <=? x) && (x <? 2 ^ 63))%Z.

Definition lenient_arange (lo hi : Z) : unit + list Z :=
  if int64 lo && int64 hi then inr (indices lo hi) else inl tt.

Definition strict_arange (lo hi : Z) : unit + list Z :=
  if int64 lo && int64 hi && (lo <=? hi)%Z then inr (indices lo hi)
  else inl tt.

(** ** Proof automation *)

(** Case analysis on the branch of [_setup_constraints] that accepted
    the name: in each of the seven cases the name and the five tables
    of [env] become known. *)
Ltac setup_branch H :=
  let E := fresh "Ename" in
  destruct (String.eqb _ _) eqn:E in H;
  [ apply String.eqb_eq in E;
    injection H as Hign Hptied Hpfixed Hltied Hlfixed
  | ].

Ltac by_lattice_system H :=
  unfold constrained_by, _setup_constraints in H; cbn in H;
  setup_branch H; [|
  setup_branch H; [|
  setup_branch H; [|
  setup_branch H; [|
  setup_branch H; [|
  setup_branch H; [|
  setup_branch H; [| discriminate H ]]]]]]].

(** Equality of two lists of reals, element by element. *)
Ltac elementwise :=
  repeat (apply (f_equal2 (@cons R)); [first [lra | field; lra]|]);
  try reflexivity.

Ltac six l H :=
  do 6 (destruct l as [|? l]; [discriminate H|]);
  destruct l; [clear H | discriminate H].

(** Bound checks of [is_valid], hypothesis side and goal side. *)
Ltac split_bounds :=
  repeat match goal with
    | H : _ /\ _ |- _ => destruct H
    | H : andb _ _ = true |- _ => apply andb_true_iff in H
    | H : Forall _ (_ :: _) |- _ => apply Forall_cons_iff in H
    | H : (if ?d then _ else _) = true |- _ =>
        destruct d; [discriminate H|]
    | H : (if ?d then _ else _) = true |- _ =>
        destruct d; [|discriminate H]
    end.

Ltac check_bounds :=
  repeat match goal with
    | |- Forall _ (_ :: _) => constructor
    | |- Forall _ [] => constructor
    | |- andb _ _ = true => apply andb_true_iff; split
    | |- _ /\ _ => split
    | |- context [Rlt_dec ?a ?b] => destruct (Rlt_dec a b); [exfalso; lra|]
    | |- context [Rgt_dec ?a ?b] => destruct (Rgt_dec a b); [exfalso; lra|]
    | |- true = true => reflexivity
    end; try lra.

(** Running the monadic methods of the linear environment. *)
Ltac linear_run :=
  unfold LatticeParameters._setup_constraints,
    LatticeParameters.set_lattice_system, LatticeParameters.name_in,
    LatticeParameters.fix_angle, LatticeParameters._angle2statevalue,
    LatticeParameters.bindM, LatticeParameters.assign,
    LatticeParameters.read, LatticeParameters.ret, LatticeParameters.raise;
  cbn.

(** Case analysis on a run of [_setup_constraints] that returned: for
    each of the seven systems, [H] becomes the equation between the
    environments. *)
Ltac linear_branch H :=
  match type of H with
  | context [String.eqb ?n ?X] =>
      let E := fresh "Ename" in
      destruct (String.eqb n X) eqn:E;
      [ apply String.eqb_eq in E; subst n; cbn in H | cbn in H ]
  end.

Ltac linear_zero_range H :=
  repeat match type of H with
    | context [Req_dec_T ?r 0] =>
        destruct (Req_dec_T r 0); [|try contradiction]; cbn in H
    end.

(** From [Hattrs : forall p, attrs env' p = at_ p], where [env'] is an
    explicit record, the value, index and state attribute of [p]. *)
Tactic Notation "linear_attr" constr(Hattrs) constr(p)
  ident(Hv) ident(Hi) ident(Hs) :=
  pose proof (f_equal LatticeParameters.attr_value (Hattrs p)) as Hv;
  pose proof (f_equal LatticeParameters.attr_idx (Hattrs p)) as Hi;
  pose proof (f_equal LatticeParameters.attr_state (Hattrs p)) as Hs;
  cbn in Hv, Hi, Hs;
  try match type of Hv with ?x = ?x => clear Hv end;
  try match type of Hs with ?x = ?x => clear Hs end.

(** Case analysis on [H : configured env], for [env] an explicit record
    with ignored dimensions [ign]: seven goals, one per lattice system,
    each with [ign] replaced by its value and the attributes of the six
    parameters in the context. *)
Ltac linear_cases H ign :=
  let env' := fresh "env'" in
  let Hrun := fresh "Hrun" in
  let Hign := fresh "Hign" in
  let Hattrs := fresh "Hattrs" in
  destruct H as (env' & Hrun & Hign & Hattrs);
  unfold LatticeParameters._setup_constraints,
    LatticeParameters.name_in, LatticeParameters.fix_angle,
    LatticeParameters._angle2statevalue, LatticeParameters.bindM,
    LatticeParameters.assign, LatticeParameters.read,
    LatticeParameters.ret, LatticeParameters.raise in Hrun;
  cbn in Hrun;
  repeat linear_branch Hrun;
  linear_zero_range Hrun;
  try discriminate Hrun;
  injection Hrun as <-;
  cbn in Hign; subst ign;
  linear_attr Hattrs LatticeParameters.P_a Hv_a Hi_a Hs_a;
  linear_attr Hattrs LatticeParameters.P_b Hv_b Hi_b Hs_b;
  linear_attr Hattrs LatticeParameters.P_c Hv_c Hi_c Hs_c;
  linear_attr Hattrs LatticeParameters.P_alpha Hv_al Hi_al Hs_al;
  linear_attr Hattrs LatticeParameters.P_beta Hv_be Hi_be Hs_be;
  linear_attr Hattrs LatticeParameters.P_gamma Hv_ga Hi_ga Hs_ga;
  clear Hattrs.

(** Rewriting with the index attributes found by [linear_cases]. *)
Ltac linear_idx :=
  unfold LatticeParameters.step_dimension,
    LatticeParameters._get_index_of_param;
  cbn;
  repeat match goal with
    | H : Some _ = LatticeParameters.attr_idx _ |- _ =>
        rewrite <- H; cbn
    | H : Some _ = LatticeParameters.attr_state _ |- _ =>
        rewrite <- H; cbn
    end.

(** Zero-range tests on concrete bounds. *)
Ltac linear_nonzero :=
  repeat match goal with
    | |- context [Req_dec_T ?r 0] =>
        destruct (Req_dec_T r 0); [exfalso; lra|]; cbn
    end.

(** Evaluating the pure methods of the linear environment. *)
Ltac linear_eval :=
  repeat (progress
    (unfold LatticeParameters.parameters2state,
       LatticeParameters._unpack_lengths_angles,
       LatticeParameters._set_param, LatticeParameters._get_param,
       LatticeParameters._get_index_of_param,
       LatticeParameters._get_state,
       LatticeParameters._length2statevalue,
       LatticeParameters._angle2statevalue,
       LatticeParameters._statevalue2length,
       LatticeParameters._statevalue2angle;
     cbn)).

(** The same case analysis for the binary64 embedding. *)
Ltac binary64_branch H :=
  let E := fresh "Ename" in
  destruct (String.eqb _ _) eqn:E in H;
  [ apply String.eqb_eq in E;
    injection H as Hign Hptied Hpfixed Hltied Hlfixed
  | ].

Ltac by_binary64_system H :=
  unfold Binary64.constrained_by, Binary64._setup_constraints in H;
  cbn in H;
  binary64_branch H; [|
  binary64_branch H; [|
  binary64_branch H; [|
  binary64_branch H; [|
  binary64_branch H; [|
  binary64_branch H; [|
  binary64_branch H; [| discriminate H ]]]]]]].

(** A row of a closed table: the hypotheses that select the row either
    contradict the table or name its value. *)
Ltac table_row :=
  repeat match goal with
    | H : nth_error _ _ = Some _ |- _ =>
        cbn in H; first [discriminate H | injection H as H; try subst]
    end;
  try reflexivity.

(** The quantified parts of [satisfies_table] on closed tables of
    length six: the index is enumerated. *)
Ltac table_rows :=
  let i := fresh "i" in
  intros i; intros;
  do 6 (try (destruct i as [|i]; [table_row|]));
  try (exfalso;
       match goal with
       | H : nth_error _ _ = Some _ |- _ =>
           cbn in H; destruct i; discriminate H
       end).

(** * Properties *)

(** ** The constraint loop, for arbitrary tables *)

Section LoopFacts.

Context {A : Type}.
Variable tied : list (option nat).
Variable fixed : list (option A).

Lemma in_combine_seq (l : list (option nat)) :
  forall k i t,
    nth_error l i = Some t ->
    In ((k + i)%nat, t) (combine (seq k (length l)) l).
Proof.
  induction l as [|x l IH]; intros k i t Hnth.
  - destruct i; discriminate.
  - destruct i as [|i]; simpl in *.
    + left. injection Hnth as ->. now rewrite Nat.add_0_r.
    + right. rewrite <- Nat.add_succ_comm. now apply IH.
Qed.

Lemma tie_targets_lower_spec :
  tie_targets_lower tied = true ->
  forall i j, nth_error tied i = Some (Some j) -> (j < i)%nat.
Proof.
  unfold tie_targets_lower. intros Hall i j Hnth.
  rewrite forallb_forall in Hall.
  specialize (Hall _ (in_combine_seq tied 0 i Hnth)).
  simpl in Hall. now apply Nat.ltb_lt in Hall.
Qed.

Lemma getitem_lt {B} (l : list B) (i : nat) :
  (i < length l)%nat -> exists x, nth_error l i = Some x /\ getitem l i = Ok x.
Proof.
  intros Hi. unfold getitem.
  destruct (nth_error l i) as [x|] eqn:E.
  - now exists x.
  - apply nth_error_None in E. lia.
Qed.

Hypothesis fixed_length : length fixed = length tied.
Hypothesis ties_lower : tie_targets_lower tied = true.

(** One iteration: the element appended at index [length out]. *)
Lemma constrained_element_ok (vec out : list A) :
  (length tied <= length vec)%nat ->
  (length out < length tied)%nat ->
  exists value,
    constrained_element tied fixed vec out (length out) = Ok value /\
    forall out', (forall i, (i < length out)%nat ->
                            nth_error out' i = nth_error out i) ->
                 expected_at tied fixed vec out' (length out) = Some value.
Proof.
  intros Hvec Hout.
  unfold constrained_element, expected_at.
  destruct (@getitem_lt _ fixed (length out)) as (f & Ef & ->); [lia|].
  rewrite Ef. destruct f as [value|]; simpl.
  - now exists value.
  - destruct (@getitem_lt _ tied (length out)) as (t & Et & ->); [lia|].
    rewrite Et. destruct t as [j|]; simpl.
    + pose proof (tie_targets_lower_spec ties_lower _ Et) as Hj.
      destruct (@getitem_lt _ out j Hj) as (x & Ex & ->).
      exists x. split; [reflexivity|].
      intros out' Hpre. now rewrite Hpre.
    + destruct (@getitem_lt _ vec (length out)) as (x & Ex & ->); [lia|].
      now exists x.
Qed.

(** The loop invariant: started at index [length out] with [m]
    indices to go, the loop returns an extension of [out] whose new
    elements are the expected ones. *)
Lemma constrain_loop_ok (vec : list A) :
  (length tied <= length vec)%nat ->
  forall m out,
    (length out + m = length tied)%nat ->
    exists out',
      constrain_loop tied fixed vec (seq (length out) m) out = Ok out' /\
      length out' = length tied /\
      (forall i, (i < length out)%nat ->
                 nth_error out' i = nth_error out i) /\
      (forall i, (length out <= i < length tied)%nat ->
                 nth_error out' i = expected_at tied fixed vec out' i).
Proof.
  intros Hvec. induction m as [|m IH]; intros out Hlen; simpl.
  - exists out. repeat split; auto; intros; lia.
  - destruct (@constrained_element_ok vec out Hvec) as (value & -> & Hval);
      [lia|]. simpl.
    destruct (IH (out ++ [value])) as (out' & Hrun & Hlen' & Hpre & Hnew).
    { rewrite length_app. simpl. lia. }
    rewrite length_app in Hrun, Hpre, Hnew. simpl in Hrun, Hpre, Hnew.
    rewrite Nat.add_1_r in Hrun, Hpre, Hnew.
    exists out'. split; [exact Hrun|]. split; [exact Hlen'|].
    assert (Hold : forall i, (i < length out)%nat ->
                             nth_error out' i = nth_error out i).
    { intros i Hi. rewrite Hpre by lia. now apply nth_error_app1. }
    split; [exact Hold|].
    intros i Hi.
    destruct (Nat.eq_dec i (length out)) as [->|Hne].
    + rewrite (Hval out' Hold), Hpre by lia.
      rewrite nth_error_app2, Nat.sub_diag by lia. reflexivity.
    + apply Hnew. lia.
Qed.

Lemma apply_constraints_resolved (vec : list A) :
  (length tied <= length vec)%nat ->
  exists out,
    apply_constraints tied fixed vec = Ok out /\
    resolved tied fixed vec out.
Proof.
  intros Hvec.
  destruct (@constrain_loop_ok vec Hvec (length tied) [])
    as (out & Hrun & Hlen & _ & Hnew); [reflexivity|].
  exists out. split; [exact Hrun|]. split; [exact Hlen|].
  intros i Hi. apply Hnew. simpl. lia.
Qed.

(** The resolved output is determined by the input's free
    dimensions. *)
Lemma resolved_unique (v1 v2 o1 o2 : list A) :
  (forall i, free_dim tied fixed i = true ->
             nth_error v1 i = nth_error v2 i) ->
  resolved tied fixed v1 o1 ->
  resolved tied fixed v2 o2 ->
  o1 = o2.
Proof.
  intros Hfree [Hl1 H1] [Hl2 H2].
  apply nth_error_ext. intros i.
  induction i as [i IH] using lt_wf_ind.
  destruct (Nat.lt_ge_cases i (length tied)) as [Hi|Hi].
  - rewrite (H1 i Hi), (H2 i Hi). unfold expected_at.
    specialize (Hfree i). unfold free_dim in Hfree.
    destruct (nth_error fixed i) as [[c|]|]; try reflexivity.
    destruct (nth_error tied i) as [[j|]|] eqn:Et; try reflexivity.
    + apply IH. exact (tie_targets_lower_spec ties_lower _ Et).
    + now apply Hfree.
  - rewrite (proj2 (nth_error_None o1 i)), (proj2 (nth_error_None o2 i));
      [reflexivity | lia | lia].
Qed.

(** A resolved output is its own resolution. *)
Lemma resolved_self (vec out : list A) :
  resolved tied fixed vec out ->
  resolved tied fixed out out.
Proof.
  intros [Hl H]. split; [exact Hl|].
  intros i Hi. specialize (H i Hi). unfold expected_at in *.
  destruct (nth_error fixed i) as [[c|]|]; try exact H.
  destruct (nth_error tied i) as [[j|]|]; try exact H.
  reflexivity.
Qed.

(** Applying the loop to its own output returns that output. *)
Lemma apply_constraints_idempotent (vec : list A) :
  (length tied <= length vec)%nat ->
  exists out,
    apply_constraints tied fixed vec = Ok out /\
    length out = length tied /\
    apply_constraints tied fixed out = Ok out.
Proof.
  intros Hvec.
  destruct (apply_constraints_resolved vec Hvec) as (out & Hrun & Hres).
  exists out. split; [exact Hrun|]. split; [exact (proj1 Hres)|].
  destruct (@apply_constraints_resolved out) as (out2 & Hrun2 & Hres2).
  { destruct Hres as [-> _]. lia. }
  rewrite Hrun2. f_equal.
  apply (@resolved_unique out out out2 out); auto.
  exact (resolved_self Hres).
Qed.

(** Inputs that agree on the free dimensions give the same output. *)
Lemma apply_constraints_free_only (v1 v2 : list A) :
  (length tied <= length v1)%nat ->
  (length tied <= length v2)%nat ->
  (forall i, free_dim tied fixed i = true ->
             nth_error v1 i = nth_error v2 i) ->
  exists out,
    apply_constraints tied fixed v1 = Ok out /\
    apply_constraints tied fixed v2 = Ok out.
Proof.
  intros H1 H2 Hfree.
  destruct (apply_constraints_resolved v1 H1) as (o1 & Hrun1 & Hres1).
  destruct (apply_constraints_resolved v2 H2) as (o2 & Hrun2 & Hres2).
  exists o1. split; [exact Hrun1|].
  rewrite Hrun2. f_equal. symmetry.
  exact (resolved_unique Hfree Hres1 Hres2).
Qed.

End LoopFacts.

(** ** Configured environments carry ordered tables *)

Lemma constrained_by_valid_name {CubeData} name (env : Env CubeData) :
  constrained_by name env -> In name lattice_systems.
Proof.
  intros H. by_lattice_system H; subst name; simpl; tauto.
Qed.

Lemma constrained_by_ordered {CubeData} name (env : Env CubeData) :
  constrained_by name env -> tables_ordered env.
Proof.
  intros H. unfold tables_ordered.
  by_lattice_system H;
    rewrite <- Hptied, <- Hpfixed, <- Hltied, <- Hlfixed;
    repeat split; reflexivity.
Qed.

(** [_setup_constraints] produces a configured environment and touches
    nothing but the tables. *)
Lemma _setup_constraints_configures {CubeData} (env env' : Env CubeData) :
  _setup_constraints env = Ok env' ->
  constrained_by (lattice_system env) env' /\
  lattice_system env' = lattice_system env /\
  state env' = state env /\ cube_data env' = cube_data env.
Proof.
  intros H. unfold _setup_constraints in H.
  repeat match type of H with
    | (if ?b then _ else _) = _ =>
        destruct b eqn:?;
        [ injection H as <-;
          unfold constrained_by, _setup_constraints,
            set_constraint_attrs, set_lattice_system_attr; cbn;
          repeat match goal with
            | E : String.eqb _ _ = _ |- _ => rewrite E; clear E
            end;
          auto
        | ]
    end.
  discriminate H.
Qed.

(** ** Constraint application on a configured environment *)

Lemma constraints_fixpoint {CubeData} name (env : Env CubeData) v :
  constrained_by name env ->
  length v = 6%nat ->
  (exists out,
      apply_projection_constraints env v = Ok out /\
      length out = 6%nat /\
      apply_projection_constraints env out = Ok out) /\
  (exists out,
      apply_lattice_constraints env v = Ok out /\
      length out = 6%nat /\
      apply_lattice_constraints env out = Ok out).
Proof.
  intros H Hv.
  destruct (constrained_by_ordered H) as (Hpt & Hpf & Hlt & Hlf & Hpo & Hlo).
  split; [rewrite <- Hpt | rewrite <- Hlt];
    apply apply_constraints_idempotent; auto; lia.
Qed.

(** C7. The tables of every lattice system are ordered (length six, tie
    targets at lower indices); and on ordered tables, for a
    six-dimensional input, [apply_projection_constraints] and
    [apply_lattice_constraints] both return (no exception) a
    six-element output that holds at each dimension the fixed value
    when one is set, otherwise the output value at the tied index when
    one is set, otherwise the input value. *)
Theorem constraints_precedence :
  (forall CubeData name (env : Env CubeData),
      constrained_by name env -> tables_ordered env) /\
  (forall CubeData (env : Env CubeData) (v : list R),
      tables_ordered env ->
      length v = 6%nat ->
      (exists out,
          apply_projection_constraints env v = Ok out /\
          resolved (projection_tied_values env)
                   (projection_fixed_values env) v out) /\
      (exists out,
          apply_lattice_constraints env v = Ok out /\
          resolved (lattice_params_tied_values env)
                   (lattice_params_fixed_values env) v out)).
Proof.
  split.
  - intros CubeData name env H. exact (constrained_by_ordered H).
  - intros CubeData env v (Hpt & Hpf & Hlt & Hlf & Hpo & Hlo) Hv.
    split; apply apply_constraints_resolved; auto; lia.
Qed.

Lemma constraints_precedence_witness :
  (exists out,
      apply_projection_constraints
        (env_of RHOMBOHEDRAL (repeat 0 6)) [1; 2; 3; 4; 5; 6] = Ok out /\
      resolved (projection_tied_values (env_of RHOMBOHEDRAL (repeat 0 6)))
               (projection_fixed_values (env_of RHOMBOHEDRAL (repeat 0 6)))
               [1; 2; 3; 4; 5; 6] out) /\
  (exists out,
      apply_lattice_constraints
        (env_of RHOMBOHEDRAL (repeat 0 6)) [1; 2; 3; 4; 5; 6] = Ok out /\
      resolved (lattice_params_tied_values (env_of RHOMBOHEDRAL (repeat 0 6)))
               (lattice_params_fixed_values (env_of RHOMBOHEDRAL (repeat 0 6)))
               [1; 2; 3; 4; 5; 6] out).
Proof.
  apply (proj2 constraints_precedence unit
           (env_of RHOMBOHEDRAL (repeat 0 6)) [1; 2; 3; 4; 5; 6]).
  - repeat split; reflexivity.
  - reflexivity.
Defined.

(** C8. For every lattice system and every six-dimensional vector,
    applying the projection constraints (respectively the lattice
    constraints) to their own output returns that output. *)
Theorem constraints_idempotent :
  forall CubeData name (env : Env CubeData) (v : list R),
    constrained_by name env ->
    length v = 6%nat ->
    (exists out,
        apply_projection_constraints env v = Ok out /\
        apply_projection_constraints env out = Ok out) /\
    (exists out,
        apply_lattice_constraints env v = Ok out /\
        apply_lattice_constraints env out = Ok out).
Proof.
  intros CubeData name env v H Hv.
  destruct (constraints_fixpoint v H Hv)
    as [(p & Hp & _ & Hp') (l & Hl & _ & Hl')].
  split; [exists p | exists l]; auto.
Qed.

Lemma constraints_idempotent_witness :
  (exists out,
      apply_projection_constraints
        (env_of HEXAGONAL (repeat 0 6)) [1; 2; 3; 4; 5; 6] = Ok out /\
      apply_projection_constraints
        (env_of HEXAGONAL (repeat 0 6)) out = Ok out) /\
  (exists out,
      apply_lattice_constraints
        (env_of HEXAGONAL (repeat 0 6)) [1; 2; 3; 4; 5; 6] = Ok out /\
      apply_lattice_constraints
        (env_of HEXAGONAL (repeat 0 6)) out = Ok out).
Proof.
  apply (@constraints_idempotent unit HEXAGONAL
           (env_of HEXAGONAL (repeat 0 6)) [1; 2; 3; 4; 5; 6]).
  - reflexivity.
  - reflexivity.
Defined.

(** C10. For every lattice system, two six-dimensional inputs that
    agree on every dimension with neither a fixed value nor a tied
    index give the same output, for the projection constraints and for
    the lattice constraints alike. *)
Theorem constrained_dims_do_not_matter :
  forall CubeData name (env : Env CubeData) (v1 v2 : list R),
    constrained_by name env ->
    length v1 = 6%nat ->
    length v2 = 6%nat ->
    ((forall i, free_dim (projection_tied_values env)
                         (projection_fixed_values env) i = true ->
                nth_error v1 i = nth_error v2 i) ->
     exists out,
       apply_projection_constraints env v1 = Ok out /\
       apply_projection_constraints env v2 = Ok out) /\
    ((forall i, free_dim (lattice_params_tied_values env)
                         (lattice_params_fixed_values env) i = true ->
                nth_error v1 i = nth_error v2 i) ->
     exists out,
       apply_lattice_constraints env v1 = Ok out /\
       apply_lattice_constraints env v2 = Ok out).
Proof.
  intros CubeData name env v1 v2 H Hv1 Hv2.
  destruct (constrained_by_ordered H) as (Hpt & Hpf & Hlt & Hlf & Hpo & Hlo).
  split; intros Hfree; apply apply_constraints_free_only; auto; lia.
Qed.

Lemma constrained_dims_do_not_matter_witness :
  (exists out,
      apply_projection_constraints
        (env_of CUBIC (repeat 0 6)) [1; 2; 3; 4; 5; 6] = Ok out /\
      apply_projection_constraints
        (env_of CUBIC (repeat 0 6)) [1; 9; 9; 9; 9; 6] = Ok out) /\
  (exists out,
      apply_lattice_constraints
        (env_of CUBIC (repeat 0 6)) [1; 2; 3; 4; 5; 6] = Ok out /\
      apply_lattice_constraints
        (env_of CUBIC (repeat 0 6)) [1; 9; 9; 9; 9; 6] = Ok out).
Proof.
  destruct (@constrained_dims_do_not_matter unit CUBIC
              (env_of CUBIC (repeat 0 6))
              [1; 2; 3; 4; 5; 6] [1; 9; 9; 9; 9; 6])
    as [Hproj Hlatt]; try reflexivity.
  split; [apply Hproj | apply Hlatt]; intros i Hi;
    do 6 (destruct i as [|i]; [first [discriminate Hi | reflexivity]|]);
    destruct i; discriminate Hi.
Defined.

(** ** The state-to-projection map *)

Lemma _state2projection_length {CubeData} (env : Env CubeData) s :
  length s = 6%nat -> length (_state2projection env (Some s)) = 6%nat.
Proof. intros H. six s H. reflexivity. Qed.

(** ** Stepping *)

Lemma binary64_constrained_by_set_state {CubeData} name
  (env : Binary64.Env CubeData) s data :
  Binary64.constrained_by name env ->
  Binary64.constrained_by name (Binary64.set_cube_attrs env s data) /\
  Binary64.constrained_by name (Binary64.set_state_attr env s).
Proof.
  intros H. unfold Binary64.constrained_by in *.
  by_binary64_system H; subst name;
    unfold Binary64._setup_constraints, Binary64.set_lattice_system_attr,
      Binary64.set_cube_attrs, Binary64.set_state_attr,
      Binary64.set_constraint_attrs; cbn;
    rewrite <- Hign, <- Hptied, <- Hpfixed, <- Hltied, <- Hlfixed;
    split; reflexivity.
Qed.

(** C2, as the code has it, over binary64. For every lattice system,
    every action and both directions: when the hypercube engine hands
    back a six-dimensional candidate without NaN (on which Python has
    no equality), [_step] returns and commits
    [_projection2state q], where [q] is the candidate's projection
    after [apply_projection_constraints], a vector that satisfies the
    projection table. For every system except hexagonal the committed
    state itself satisfies the table in projection space: its
    projection holds every fixed value and every tie, and
    [apply_projection_constraints] returns it unchanged. Under
    hexagonal the projection of the committed state holds
    [-0.2746530721670275] in dimension 0, which is not the fixed value
    [-numpy.log(3) / 4 = -0.27465307216702745]. Equality is identity
    of binary64 values. *)
Theorem committed_state_satisfies_table :
  forall CubeData Action
         (cube_step : Binary64.Env CubeData -> Action -> bool ->
                      (list float * Action * bool) * (list float * CubeData))
         name (env : Binary64.Env CubeData) (action a : Action)
         (backward valid : bool) (cand cs : list float) (data : CubeData),
    Binary64.constrained_by name env ->
    cube_step env action backward = ((cand, a, valid), (cs, data)) ->
    length cand = 6%nat ->
    Forall (fun x => PrimFloat.is_nan x = false) cand ->
    exists q env',
      Binary64.apply_projection_constraints env
        (Binary64._state2projection env (Some cand)) = Ok q /\
      satisfies_table (Binary64.projection_tied_values env)
        (Binary64.projection_fixed_values env) q /\
      Binary64._step cube_step env action backward
      = (Ok (Binary64._projection2state q, a, valid), env') /\
      Binary64.state env' = Binary64._projection2state q /\
      Binary64.constrained_by name env' /\
      (name <> HEXAGONAL ->
       satisfies_table (Binary64.projection_tied_values env')
         (Binary64.projection_fixed_values env')
         (Binary64._state2projection env' None) /\
       Binary64.apply_projection_constraints env'
         (Binary64._state2projection env' None)
       = Ok (Binary64._state2projection env' None)) /\
      (name = HEXAGONAL ->
       nth_error (Binary64.projection_fixed_values env') 0
       = Some (Some (- Binary64.log_3 / 4)%float) /\
       nth_error (Binary64._state2projection env' None) 0
       = Some (-0x1.193ea7aad030cp-2)%float /\
       PrimFloat.eqb (-0x1.193ea7aad030cp-2) (- Binary64.log_3 / 4)
       = false).
Proof.
  intros CubeData Action cube_step name env action a backward valid
         cand cs data H Hcube Hlen _.
  six cand Hlen.
  pose proof (proj1 (binary64_constrained_by_set_state cs data H)) as H1.
  assert (H2 : forall s,
             Binary64.constrained_by name
               (Binary64.set_state_attr
                  (Binary64.set_cube_attrs env cs data) s))
    by (intros s;
        exact (proj2 (@binary64_constrained_by_set_state
                        _ name _ s data H1))).
  unfold Binary64._step. rewrite Hcube.
  by_binary64_system H; subst name.
  all: unfold Binary64.apply_projection_constraints;
    cbn [Binary64.projection_tied_values Binary64.projection_fixed_values
         Binary64.set_cube_attrs Binary64.set_state_attr];
    rewrite <- Hptied, <- Hpfixed.
  all: do 2 eexists; split; [cbn; reflexivity|].
  all: split; [split; [reflexivity|split; table_rows]|].
  all: split; [reflexivity|]; split; [reflexivity|].
  all: split; [apply H2|].
  all: split; intros Hname; try discriminate Hname;
    try (now contradiction Hname).
  all: cbn; try rewrite <- Hptied; rewrite <- Hpfixed.
  all: try (split; [split; [reflexivity|split; table_rows]|reflexivity]).
  split; [reflexivity|]. split; reflexivity.
Qed.

Lemma committed_state_satisfies_table_witness :
  exists q env',
    Binary64.apply_projection_constraints
      (Binary64.env_of RHOMBOHEDRAL (repeat 0%float 6))
      (Binary64._state2projection
         (Binary64.env_of RHOMBOHEDRAL (repeat 0%float 6))
         (Some (repeat 0.25%float 6))) = Ok q /\
    satisfies_table
      (Binary64.projection_tied_values
         (Binary64.env_of RHOMBOHEDRAL (repeat 0%float 6)))
      (Binary64.projection_fixed_values
         (Binary64.env_of RHOMBOHEDRAL (repeat 0%float 6))) q /\
    Binary64._step (Binary64.accepting_cube_step (repeat 0.25%float 6))
      (Binary64.env_of RHOMBOHEDRAL (repeat 0%float 6)) tt false
    = (Ok (Binary64._projection2state q, tt, true), env') /\
    Binary64.state env' = Binary64._projection2state q /\
    Binary64.constrained_by RHOMBOHEDRAL env' /\
    satisfies_table (Binary64.projection_tied_values env')
      (Binary64.projection_fixed_values env')
      (Binary64._state2projection env' None) /\
    Binary64.apply_projection_constraints env'
      (Binary64._state2projection env' None)
    = Ok (Binary64._state2projection env' None).
Proof.
  destruct (@committed_state_satisfies_table unit unit
              (Binary64.accepting_cube_step (repeat 0.25%float 6))
              RHOMBOHEDRAL (Binary64.env_of RHOMBOHEDRAL (repeat 0%float 6))
              tt tt false true (repeat 0.25%float 6)
              (repeat 0.25%float 6) tt
              eq_refl eq_refl eq_refl
              ltac:(repeat constructor))
    as (q & env' & Hq & Htable & Hstep & Hstate & Hconf & Hother & _).
  exists q, env'.
  destruct (Hother ltac:(discriminate)) as [Hsat Hfix].
  repeat (split; [assumption|]). assumption.
Defined.

(** C2, as stated, fails: under the hexagonal system, from the
    all-zero source state, a step the engine accepts with the
    candidate [[0.5] * 6] commits a state whose projection holds
    [-0.2746530721670275] in dimension 0, while
    [apply_projection_constraints] puts the fixed value
    [-0.27465307216702745] there; Python's [==] tells the two apart,
    so the projection of the committed state is not returned
    unchanged. *)
Lemma hexagonal_step_misses_fixed_value :
  Binary64.constrained_by HEXAGONAL
    (Binary64.env_of HEXAGONAL (repeat 0%float 6)) /\
  exists s env' q,
    Binary64._step (Binary64.accepting_cube_step (repeat 0.5%float 6))
      (Binary64.env_of HEXAGONAL (repeat 0%float 6)) tt false
    = (Ok (s, tt, true), env') /\
    Binary64.state env' = s /\
    Binary64.apply_projection_constraints env'
      (Binary64._state2projection env' None) = Ok q /\
    nth_error q 0 = Some (- Binary64.log_3 / 4)%float /\
    nth_error (Binary64._state2projection env' None) 0
    = Some (-0x1.193ea7aad030cp-2)%float /\
    PrimFloat.eqb (-0x1.193ea7aad030cp-2) (- Binary64.log_3 / 4) = false /\
    q <> Binary64._state2projection env' None.
Proof.
  split; [reflexivity|].
  do 3 eexists. split; [reflexivity|]. split; [reflexivity|].
  split; [reflexivity|]. split; [reflexivity|]. split; [reflexivity|].
  split; [reflexivity|].
  intros Heq. vm_compute in Heq. discriminate Heq.
Qed.

(** C1, as the code has it. When the engine reports [valid = False],
    having left the previous state untouched, [_step] does not skip
    the re-projection: it returns, and the state it commits is
    [_projection2state] of the constrained projection of the previous
    state. *)
Theorem invalid_step_reprojects :
  forall CubeData Action
         (cube_step : Env CubeData -> Action -> bool ->
                      (list R * Action * bool) * (list R * CubeData))
         name (env : Env CubeData) (action a : Action) (backward : bool)
         (data : CubeData),
    constrained_by name env ->
    length (state env) = 6%nat ->
    cube_step env action backward
    = ((state env, a, false), (state env, data)) ->
    exists pv env',
      apply_projection_constraints env (_state2projection env None) = Ok pv /\
      _step cube_step env action backward
      = (Ok (_projection2state pv, a, false), env') /\
      state env' = _projection2state pv.
Proof.
  intros CubeData Action cube_step name env action a backward data
         H Hlen Hcube.
  destruct (constraints_fixpoint (_state2projection env None) H)
    as [(pv & Hrun & _ & _) _].
  { unfold _state2projection at 1. simpl _get_state. unfold copy.
    now apply (_state2projection_length env). }
  exists pv. eexists. split; [exact Hrun|].
  unfold _step. rewrite Hcube.
  change (apply_projection_constraints (set_cube_attrs env (state env) data)
            (_state2projection (set_cube_attrs env (state env) data)
               (Some (state env))))
    with (apply_projection_constraints env (_state2projection env None)).
  rewrite Hrun. split; reflexivity.
Qed.

Lemma invalid_step_reprojects_witness :
  exists pv env',
    apply_projection_constraints (env_of CUBIC [1/2; 1/2; 1/2; 1/2; 1/2; 1/4])
      (_state2projection (env_of CUBIC [1/2; 1/2; 1/2; 1/2; 1/2; 1/4]) None)
    = Ok pv /\
    _step rejecting_cube_step
          (env_of CUBIC [1/2; 1/2; 1/2; 1/2; 1/2; 1/4]) tt false
    = (Ok (_projection2state pv, tt, false), env') /\
    state env' = _projection2state pv.
Proof.
  apply (@invalid_step_reprojects unit unit rejecting_cube_step CUBIC
           (env_of CUBIC [1/2; 1/2; 1/2; 1/2; 1/2; 1/4]) tt tt false tt).
  - reflexivity.
  - reflexivity.
  - reflexivity.
Defined.

(** C1, as stated, fails: under the cubic system, from the all-zero
    source state, a step the engine rejects (state untouched,
    [valid = False]) commits [[1/2; 1/2; 1/2; 1/2; 1/2; 0]]. *)
Lemma invalid_step_changes_state :
  rejecting_cube_step (env_of CUBIC (repeat 0 6)) tt false
  = ((state (env_of CUBIC (repeat 0 6)), tt, false),
     (state (env_of CUBIC (repeat 0 6)), tt)) /\
  constrained_by CUBIC (env_of CUBIC (repeat 0 6)) /\
  exists env',
    _step rejecting_cube_step (env_of CUBIC (repeat 0 6)) tt false
    = (Ok (state env', tt, false), env') /\
    state env' = [1/2; 1/2; 1/2; 1/2; 1/2; 0] /\
    state env' <> state (env_of CUBIC (repeat 0 6)).
Proof.
  split; [reflexivity|]. split; [reflexivity|].
  eexists. split; [reflexivity|]. cbn. split.
  - unfold _projection2state. simpl. elementwise.
  - intros Heq. injection Heq as H0 _. lra.
Qed.

(** Nothing more can be promised about a rejected step: in binary64
    the two affine maps are not exact inverses, so re-projection moves
    even a state that satisfies every constraint. Under the triclinic
    system (no constraints), from the state [[0.1] * 6], a step the
    engine rejects commits [[0.10000000000000002,
    0.10000000000000002, 0.10000000000000002, 0.09999999999999999,
    0.10000000000000002, 0.1]]. *)
Lemma rejected_step_moves_constrained_state :
  Binary64.constrained_by TRICLINIC
    (Binary64.env_of TRICLINIC (repeat 0x1.999999999999ap-4%float 6)) /\
  Binary64.apply_projection_constraints
    (Binary64.env_of TRICLINIC (repeat 0x1.999999999999ap-4%float 6))
    (Binary64._state2projection
       (Binary64.env_of TRICLINIC (repeat 0x1.999999999999ap-4%float 6))
       None)
  = Ok (Binary64._state2projection
          (Binary64.env_of TRICLINIC (repeat 0x1.999999999999ap-4%float 6))
          None) /\
  exists env',
    Binary64._step Binary64.rejecting_cube_step
      (Binary64.env_of TRICLINIC (repeat 0x1.999999999999ap-4%float 6))
      tt false
    = (Ok (Binary64.state env', tt, false), env') /\
    Binary64.state env'
    = [0x1.999999999999bp-4; 0x1.999999999999bp-4; 0x1.999999999999bp-4;
       0x1.9999999999999p-4; 0x1.999999999999bp-4;
       0x1.999999999999ap-4]%float /\
    PrimFloat.eqb 0x1.999999999999bp-4 0x1.999999999999ap-4 = false.
Proof.
  split; [reflexivity|]. split; [reflexivity|].
  eexists. split; [reflexivity|]. split; reflexivity.
Qed.

(** ** State to projection *)

(** C4, as the code has it. With
    [min_projection_values = [-3/2, -3/2, -3/2, -9/2, -3, -3/2]] and
    [max_projection_values = [3/2, 3/2, 3/2, 9/2, 3, 7]],
    [_state2projection] is the dimension-wise affine map
    [min_p + s * (max_p - min_p)], and (under any lattice system,
    triclinic included) it sends the state [[0.5] * 6] to
    [[0, 0, 0, 0, 0, 2.75]]. *)
Theorem midpoint_projection :
  forall CubeData (env : Env CubeData),
    min_projection_values = [-3/2; -3/2; -3/2; -9/2; -3; -3/2] /\
    max_projection_values = [3/2; 3/2; 3/2; 9/2; 3; 7] /\
    (forall s0 s1 s2 s3 s4 s5 : R,
        _state2projection env (Some [s0; s1; s2; s3; s4; s5])
        = [-3/2 + s0 * (3/2 - -3/2); -3/2 + s1 * (3/2 - -3/2);
           -3/2 + s2 * (3/2 - -3/2); -9/2 + s3 * (9/2 - -9/2);
           -3 + s4 * (3 - -3); -3/2 + s5 * (7 - -3/2)]) /\
    _state2projection env (Some (repeat 0.5 6)) = [0; 0; 0; 0; 0; 2.75].
Proof.
  intros CubeData env. repeat split.
  unfold _state2projection. simpl. elementwise.
Qed.

(** C4, as stated, fails: the last component is not 2. *)
Lemma midpoint_projection_is_not_2 :
  constrained_by TRICLINIC (env_of TRICLINIC (repeat 0 6)) /\
  _state2projection (env_of TRICLINIC (repeat 0 6)) (Some (repeat 0.5 6))
  <> [0; 0; 0; 0; 0; 2].
Proof.
  split; [reflexivity|].
  unfold _state2projection. simpl. intros Heq.
  injection Heq as _ _ _ _ _ H5. lra.
Qed.

(** ** Constraint tables *)

(** C5. [_setup_constraints] builds, for the hexagonal system:
    [ignored_dims = [T,T,T,T,F,F]], no projection ties, projection
    dimensions 0..3 fixed at [-ln(3)/4, 0, 0, 0], lattice [b] tied to
    [a], lattice [alpha = beta = 90] and [gamma = 120]; and for the
    rhombohedral system: [ignored_dims = [F,T,T,T,T,F]], projection
    dimensions 1 and 2 tied to 0, projection dimensions 3 and 4 fixed
    at 0, lattice [b], [c] tied to [a], lattice [beta], [gamma] tied
    to [alpha] (index 3), and no fixed lattice value. *)
Theorem hexagonal_rhombohedral_tables :
  forall CubeData (env : Env CubeData),
    _setup_constraints (set_lattice_system_attr env HEXAGONAL)
    = Ok (set_constraint_attrs (set_lattice_system_attr env HEXAGONAL)
            [true; true; true; true; false; false]
            [None; None; None; None; None; None]
            [Some (- ln 3 / 4); Some 0; Some 0; Some 0; None; None]
            [None; Some 0%nat; None; None; None; None]
            [None; None; None; Some 90; Some 90; Some 120]) /\
    _setup_constraints (set_lattice_system_attr env RHOMBOHEDRAL)
    = Ok (set_constraint_attrs (set_lattice_system_attr env RHOMBOHEDRAL)
            [false; true; true; true; true; false]
            [None; Some 0%nat; Some 0%nat; None; None; None]
            [None; None; None; Some 0; Some 0; None]
            [None; Some 0%nat; Some 0%nat; None; Some 3%nat; Some 3%nat]
            [None; None; None; None; None; None]).
Proof.
  intros CubeData env. split; reflexivity.
Qed.

(** ** Invalid lattice systems *)

Lemma not_a_lattice_system name :
  ~ In name lattice_systems ->
  (name =? TRICLINIC)%string = false /\
  (name =? MONOCLINIC)%string = false /\
  (name =? ORTHORHOMBIC)%string = false /\
  (name =? TETRAGONAL)%string = false /\
  (name =? HEXAGONAL)%string = false /\
  (name =? RHOMBOHEDRAL)%string = false /\
  (name =? CUBIC)%string = false.
Proof.
  intros Hnot. repeat split; apply String.eqb_neq; intros ->;
    apply Hnot; simpl; tauto.
Qed.

Lemma _setup_constraints_invalid {CubeData} (env : Env CubeData) :
  ~ In (lattice_system env) lattice_systems ->
  _setup_constraints env
  = Raise (not_a_valid_lattice_system (lattice_system env)).
Proof.
  intros Hnot.
  destruct (@not_a_lattice_system _ Hnot)
    as (E1 & E2 & E3 & E4 & E5 & E6 & E7).
  unfold _setup_constraints.
  now rewrite E1, E2, E3, E4, E5, E6, E7.
Qed.

(** C9. For a name that is none of the seven lattice systems,
    [_setup_constraints] raises [ValueError]; [set_lattice_system]
    lets that exception through, with the name stored and the tables
    as they were; and [__init__] never returns an environment: once the
    parent initialiser has returned it raises the same [ValueError]. *)
Theorem invalid_lattice_system_raises :
  forall name,
    ~ In name lattice_systems ->
    (forall CubeData (env : Env CubeData),
        lattice_system env = name ->
        _setup_constraints env = Raise (not_a_valid_lattice_system name)) /\
    (forall CubeData (env : Env CubeData),
        set_lattice_system env name
        = (Raise (not_a_valid_lattice_system name),
           set_lattice_system_attr env name)) /\
    (forall CubeData Kwargs
            (cube_init : Kwargs -> result (list R * list bool * CubeData))
            (kwargs : Kwargs),
        (forall env, __init__ cube_init name kwargs <> Ok env) /\
        (forall cube, cube_init kwargs = Ok cube ->
                      __init__ cube_init name kwargs
                      = Raise (not_a_valid_lattice_system name))).
Proof.
  intros name Hnot. split; [|split].
  - intros CubeData env <-. now apply _setup_constraints_invalid.
  - intros CubeData env. unfold set_lattice_system.
    now rewrite _setup_constraints_invalid.
  - intros CubeData Kwargs cube_init kwargs. unfold __init__.
    destruct (cube_init kwargs) as [[[source ign] data]|e]; simpl.
    + rewrite _setup_constraints_invalid by exact Hnot. simpl. split.
      * intros env. discriminate.
      * intros cube _. reflexivity.
    + split; [intros env; discriminate | intros cube; discriminate].
Qed.

Lemma invalid_lattice_system_raises_witness :
  set_lattice_system (env_of CUBIC (repeat 0 6)) "trigonal"
  = (Raise (not_a_valid_lattice_system "trigonal"),
     set_lattice_system_attr (env_of CUBIC (repeat 0 6)) "trigonal").
Proof.
  refine (proj1 (proj2 (@invalid_lattice_system_raises "trigonal" _))
            unit (env_of CUBIC (repeat 0 6))).
  simpl. intros H. repeat (destruct H as [H|H]; [discriminate H|]). exact H.
Defined.

(** ** State to lattice parameters *)

Lemma _projection2lattice_six (expm : matrix -> matrix) pv :
  length pv = 6%nat ->
  exists a b c alpha beta gamma,
    _projection2lattice expm pv = Ok [a; b; c; alpha; beta; gamma].
Proof.
  intros H. six pv H. unfold _projection2lattice.
  do 6 eexists. reflexivity.
Qed.

Lemma lattice_constraints_resolved {CubeData} name (env : Env CubeData) v :
  constrained_by name env ->
  length v = 6%nat ->
  exists out,
    apply_lattice_constraints env v = Ok out /\
    resolved (lattice_params_tied_values env)
             (lattice_params_fixed_values env) v out.
Proof.
  intros H Hv.
  destruct (constrained_by_ordered H) as (_ & _ & Hlt & Hlf & _ & Hlo).
  apply apply_constraints_resolved; auto; lia.
Qed.

(** The six equations a resolved six-element output satisfies. *)
Lemma resolved_six {A} (tied : list (option nat)) (fixed : list (option A))
  (v out : list A) :
  length tied = 6%nat ->
  resolved tied fixed v out ->
  exists o0 o1 o2 o3 o4 o5,
    out = [o0; o1; o2; o3; o4; o5] /\
    Some o0 = expected_at tied fixed v out 0 /\
    Some o1 = expected_at tied fixed v out 1 /\
    Some o2 = expected_at tied fixed v out 2 /\
    Some o3 = expected_at tied fixed v out 3 /\
    Some o4 = expected_at tied fixed v out 4 /\
    Some o5 = expected_at tied fixed v out 5.
Proof.
  intros Ht [Hlen Hres]. rewrite Ht in Hlen, Hres.
  pose proof (Hres 0%nat ltac:(lia)) as H0.
  pose proof (Hres 1%nat ltac:(lia)) as H1.
  pose proof (Hres 2%nat ltac:(lia)) as H2.
  pose proof (Hres 3%nat ltac:(lia)) as H3.
  pose proof (Hres 4%nat ltac:(lia)) as H4.
  pose proof (Hres 5%nat ltac:(lia)) as H5.
  clear Hres. six out Hlen.
  do 6 eexists. split; [reflexivity|].
  simpl nth_error in H0, H1, H2, H3, H4, H5 at 1.
  repeat split; assumption.
Qed.

(** C6. For every lattice system and every six-dimensional state,
    [state2lattice] returns [[a, b, c], [alpha, beta, gamma]] in which
    every dimension with a tied index in the lattice table equals its
    tie target and every dimension with a fixed value equals that
    value; under the cubic system [a = b = c] and
    [alpha = beta = gamma = 90]. *)
Theorem state2lattice_constraints :
  forall CubeData (expm : matrix -> matrix) name (env : Env CubeData)
         (s : option (list R)),
    constrained_by name env ->
    length (_get_state env s) = 6%nat ->
    exists a b c alpha beta gamma,
      state2lattice expm env s = Ok [[a; b; c]; [alpha; beta; gamma]] /\
      (forall i j,
          nth_error (lattice_params_tied_values env) i = Some (Some j) ->
          nth_error [a; b; c; alpha; beta; gamma] i
          = nth_error [a; b; c; alpha; beta; gamma] j) /\
      (forall i x,
          nth_error (lattice_params_fixed_values env) i = Some (Some x) ->
          nth_error [a; b; c; alpha; beta; gamma] i = Some x) /\
      (name = CUBIC ->
       a = b /\ b = c /\ alpha = 90 /\ beta = 90 /\ gamma = 90).
Proof.
  intros CubeData expm name env s H Hlen.
  unfold state2lattice.
  destruct (constraints_fixpoint
              (_state2projection env (Some (_get_state env s))) H
              (_state2projection_length env _ Hlen))
    as [(pv & -> & Hpv & _) _].
  cbn [Py.bind].
  destruct (_projection2lattice_six expm pv Hpv)
    as (a0 & b0 & c0 & al0 & be0 & ga0 & ->).
  cbn [Py.bind].
  destruct (lattice_constraints_resolved [a0; b0; c0; al0; be0; ga0] H)
    as (out & -> & Hres); [reflexivity|].
  cbn [Py.bind].
  destruct (constrained_by_ordered H) as (_ & _ & Hlt & _).
  destruct (resolved_six Hlt Hres)
    as (a & b & c & alpha & beta & gamma & -> & E0 & E1 & E2 & E3 & E4 & E5).
  clear Hres Hlt.
  exists a, b, c, alpha, beta, gamma. split; [reflexivity|].
  unfold expected_at in *.
  by_lattice_system H;
    (subst name;
     rewrite <- Hltied, <- Hlfixed in *;
     cbn in E0, E1, E2, E3, E4, E5;
     split;
     [ intros i j Hi;
       do 6 (destruct i as [|i];
             [first [discriminate Hi
                    | injection Hi as <-; cbn; congruence]|]);
       destruct i; discriminate Hi
     | split;
       [ intros i x Hi;
         do 6 (destruct i as [|i];
               [first [discriminate Hi
                      | injection Hi as <-; cbn; congruence]|]);
         destruct i; discriminate Hi
       | intros Hname;
         first [discriminate Hname | repeat split; congruence] ] ]).
Qed.

Lemma state2lattice_constraints_witness :
  exists a b c alpha beta gamma,
    state2lattice (fun m => m) (env_of CUBIC (repeat 0 6)) None
    = Ok [[a; b; c]; [alpha; beta; gamma]] /\
    (forall i j,
        nth_error (lattice_params_tied_values (env_of CUBIC (repeat 0 6))) i
        = Some (Some j) ->
        nth_error [a; b; c; alpha; beta; gamma] i
        = nth_error [a; b; c; alpha; beta; gamma] j) /\
    (forall i x,
        nth_error (lattice_params_fixed_values (env_of CUBIC (repeat 0 6))) i
        = Some (Some x) ->
        nth_error [a; b; c; alpha; beta; gamma] i = Some x) /\
    (CUBIC = CUBIC ->
     a = b /\ b = c /\ alpha = 90 /\ beta = 90 /\ gamma = 90).
Proof.
  apply (@state2lattice_constraints unit (fun m => m) CUBIC
           (env_of CUBIC (repeat 0 6)) None).
  - reflexivity.
  - reflexivity.
Defined.

(** ** Readable strings *)

(** C3, what the code does. [readable2state] never returns a state:
    either [float] raises on a token, or the parsed values are spread
    over the positional parameters of [_lattice2projection], which has
    a single one, and the call raises. *)
Theorem readable2state_raises :
  forall (logm : matrix -> matrix * R) (py_float : string -> result R)
         (readable : string),
    exists e, readable2state logm py_float readable = Raise e.
Proof.
  intros logm py_float readable. unfold readable2state.
  destruct (map_result py_float _) as [values|e]; cbn [Py.bind].
  - destruct values as [|x [|y values]]; cbn; eauto.
  - eauto.
Qed.

(** The tokens of the spec's example string, and the exception the
    call raises once they have been parsed. *)
Lemma readable2state_example (logm : matrix -> matrix * R)
  (py_float : string -> result R) :
  split_on ","%char
    (fold_left (fun r c => remove_char c r) ["("%char; ")"%char; " "%char]
       "(4.0, 4.0, 4.0), (90.0, 90.0, 90.0)"%string)
  = ["4.0"; "4.0"; "4.0"; "90.0"; "90.0"; "90.0"]%string /\
  (py_float "4.0"%string = Ok 4 ->
   py_float "90.0"%string = Ok 90 ->
   readable2state logm py_float "(4.0, 4.0, 4.0), (90.0, 90.0, 90.0)"
   = Raise TypeError).
Proof.
  split; [reflexivity|].
  intros H4 H90. unfold readable2state.
  change (split_on _ _) with ["4.0"; "4.0"; "4.0"; "90.0"; "90.0"; "90.0"]%string.
  cbn [map_result]. rewrite H4, H90. reflexivity.
Qed.

(** * Further properties of the environment *)

(** ** The constraint loop on arbitrary tables *)

Section LoopOutcome.

Context {A : Type}.
Variable tied : list (option nat).
Variable fixed : list (option A).
Variable vec : list A.

Lemma getitem_outcome {B} (l : list B) (i : nat) :
  match getitem l i with
  | Ok x => nth_error l i = Some x
  | Raise e => e = IndexError /\ (length l <= i)%nat
  end.
Proof.
  unfold getitem. destruct (nth_error l i) eqn:E; [reflexivity|].
  split; [reflexivity|]. now apply nth_error_None.
Qed.

Lemma constrained_element_raises (out : list A) (i : nat) (e : exn) :
  constrained_element tied fixed vec out i = Raise e -> e = IndexError.
Proof.
  unfold constrained_element, getitem.
  destruct (nth_error fixed i) as [[value|]|]; simpl; try congruence.
  destruct (nth_error tied i) as [[j|]|]; simpl; try congruence.
  - destruct (nth_error out j); congruence.
  - destruct (nth_error vec i); congruence.
Qed.

Lemma constrain_loop_outcome (idxs : list nat) :
  forall out,
    match constrain_loop tied fixed vec idxs out with
    | Ok out' => length out' = (length out + length idxs)%nat
    | Raise e => e = IndexError
    end.
Proof.
  induction idxs as [|i idxs IH]; intros out; simpl.
  - lia.
  - destruct (constrained_element tied fixed vec out i) as [value|e] eqn:E;
      simpl.
    + specialize (IH (out ++ [value])).
      destruct (constrain_loop tied fixed vec idxs (out ++ [value]));
        [|exact IH].
      rewrite IH, length_app. simpl. lia.
    + exact (constrained_element_raises _ _ E).
Qed.

Lemma apply_constraints_outcome :
  match apply_constraints tied fixed vec with
  | Ok out => length out = length tied
  | Raise e => e = IndexError
  end.
Proof.
  unfold apply_constraints.
  pose proof (constrain_loop_outcome (seq 0 (length tied)) []) as H.
  destruct (constrain_loop tied fixed vec (seq 0 (length tied)) []);
    [|exact H].
  now rewrite H, length_seq.
Qed.

(** A dimension that is not fixed and is tied to itself or to a later
    dimension stops the loop. *)
Lemma constrain_loop_forward_tie (i j : nat) :
  nth_error fixed i = Some None ->
  nth_error tied i = Some (Some j) ->
  (i <= j)%nat ->
  forall m out,
    (length out <= i < length out + m)%nat ->
    constrain_loop tied fixed vec (seq (length out) m) out = Raise IndexError.
Proof.
  intros Hf Ht Hij. induction m as [|m IH]; intros out Hi; [lia|].
  simpl.
  destruct (Nat.eq_dec (length out) i) as [Heq|Hne].
  - unfold constrained_element, getitem at 1 2. rewrite Heq, Hf. simpl.
    rewrite Ht. simpl. unfold getitem.
    rewrite (proj2 (nth_error_None out j)) by lia. reflexivity.
  - destruct (constrained_element tied fixed vec out (length out))
      as [value|e] eqn:E; simpl.
    + specialize (IH (out ++ [value])).
      rewrite length_app in IH. simpl in IH. rewrite Nat.add_1_r in IH.
      apply IH. lia.
    + now rewrite (constrained_element_raises _ _ E).
Qed.

Lemma apply_constraints_forward_tie (i j : nat) :
  nth_error fixed i = Some None ->
  nth_error tied i = Some (Some j) ->
  (i <= j)%nat ->
  apply_constraints tied fixed vec = Raise IndexError.
Proof.
  intros Hf Ht Hij. unfold apply_constraints.
  apply (@constrain_loop_forward_tie i j Hf Ht Hij (length tied) []).
  simpl. split; [lia|]. apply nth_error_Some. congruence.
Qed.

(** A free dimension beyond the end of the input stops the loop. *)
Lemma constrain_loop_short_input (i : nat) :
  nth_error fixed i = Some None ->
  nth_error tied i = Some None ->
  (length vec <= i)%nat ->
  forall m out,
    (length out <= i < length out + m)%nat ->
    constrain_loop tied fixed vec (seq (length out) m) out = Raise IndexError.
Proof.
  intros Hf Ht Hv. induction m as [|m IH]; intros out Hi; [lia|].
  simpl.
  destruct (Nat.eq_dec (length out) i) as [Heq|Hne].
  - unfold constrained_element, getitem at 1 2. rewrite Heq, Hf. simpl.
    rewrite Ht. simpl. unfold getitem.
    rewrite (proj2 (nth_error_None vec i)) by lia. reflexivity.
  - destruct (constrained_element tied fixed vec out (length out))
      as [value|e] eqn:E; simpl.
    + specialize (IH (out ++ [value])).
      rewrite length_app in IH. simpl in IH. rewrite Nat.add_1_r in IH.
      apply IH. lia.
    + now rewrite (constrained_element_raises _ _ E).
Qed.

Lemma apply_constraints_short_input (i : nat) :
  nth_error fixed i = Some None ->
  nth_error tied i = Some None ->
  (length vec <= i)%nat ->
  apply_constraints tied fixed vec = Raise IndexError.
Proof.
  intros Hf Ht Hv. unfold apply_constraints.
  apply (@constrain_loop_short_input i Hf Ht Hv (length tied) []).
  simpl. split; [lia|]. apply nth_error_Some. congruence.
Qed.

End LoopOutcome.

(** X3. Whatever the tables and the input, [apply_projection_constraints]
    and [apply_lattice_constraints] either return a vector with one
    entry per table row or raise [IndexError]; they raise nothing else
    and never return a vector of another length. *)
Theorem constraints_output_shape :
  forall CubeData (env : Env CubeData) (v : list R),
    match apply_projection_constraints env v with
    | Ok out => length out = length (projection_tied_values env)
    | Raise e => e = IndexError
    end /\
    match apply_lattice_constraints env v with
    | Ok out => length out = length (lattice_params_tied_values env)
    | Raise e => e = IndexError
    end.
Proof.
  intros CubeData env v. split; apply apply_constraints_outcome.
Qed.

(** X4. A dimension without a fixed value that is tied to itself or to
    a later dimension makes constraint application raise [IndexError],
    for every input: the tie target has not been resolved yet. *)
Theorem forward_tie_raises :
  forall CubeData (env : Env CubeData) (v : list R) (i j : nat),
    (i <= j)%nat ->
    (nth_error (projection_fixed_values env) i = Some None ->
     nth_error (projection_tied_values env) i = Some (Some j) ->
     apply_projection_constraints env v = Raise IndexError) /\
    (nth_error (lattice_params_fixed_values env) i = Some None ->
     nth_error (lattice_params_tied_values env) i = Some (Some j) ->
     apply_lattice_constraints env v = Raise IndexError).
Proof.
  intros CubeData env v i j Hij.
  split; intros Hf Ht;
    eapply apply_constraints_forward_tie; eassumption.
Qed.

Lemma forward_tie_raises_witness :
  apply_projection_constraints
    (mkEnv CUBIC [] [None; Some 2%nat; None] [None; None; None]
           [Some 0%nat] [None] [] tt) [1; 2; 3]
  = Raise IndexError /\
  apply_lattice_constraints
    (mkEnv CUBIC [] [None; Some 2%nat; None] [None; None; None]
           [Some 0%nat] [None] [] tt) [1; 2; 3]
  = Raise IndexError.
Proof.
  split.
  - apply (proj1 (@forward_tie_raises unit
                    (mkEnv CUBIC [] [None; Some 2%nat; None]
                           [None; None; None] [Some 0%nat] [None] [] tt)
                    [1; 2; 3] 1%nat 2%nat ltac:(lia))); reflexivity.
  - apply (proj2 (@forward_tie_raises unit
                    (mkEnv CUBIC [] [None; Some 2%nat; None]
                           [None; None; None] [Some 0%nat] [None] [] tt)
                    [1; 2; 3] 0%nat 0%nat ltac:(lia))); reflexivity.
Defined.

(** ** Tables and the lattice-system setter *)

(** X5. In the tables of every lattice system, the ignored dimensions
    are exactly the dimensions constrained in projection space: a
    dimension is ignored if and only if it carries a fixed projection
    value or a projection tie. *)
Theorem ignored_dims_are_constrained_dims :
  forall CubeData name (env : Env CubeData) (i : nat),
    constrained_by name env ->
    (i < 6)%nat ->
    nth_error (ignored_dims env) i
    = Some (negb (free_dim (projection_tied_values env)
                           (projection_fixed_values env) i)).
Proof.
  intros CubeData name env i H Hi.
  by_lattice_system H;
    (rewrite <- Hign, <- Hptied, <- Hpfixed;
     do 6 (destruct i as [|i]; [reflexivity|]); lia).
Qed.

Lemma ignored_dims_are_constrained_dims_witness :
  nth_error (ignored_dims (env_of RHOMBOHEDRAL (repeat 0 6))) 1
  = Some (negb (free_dim
                  (projection_tied_values (env_of RHOMBOHEDRAL (repeat 0 6)))
                  (projection_fixed_values (env_of RHOMBOHEDRAL (repeat 0 6)))
                  1)).
Proof.
  apply (@ignored_dims_are_constrained_dims unit RHOMBOHEDRAL
           (env_of RHOMBOHEDRAL (repeat 0 6)) 1%nat).
  - reflexivity.
  - lia.
Defined.


(** Two environments with the same state and private data are sent to
    the same environment by [set_lattice_system] with a valid name. *)
Lemma set_lattice_system_frame {CubeData} (e1 e2 : Env CubeData) name :
  In name lattice_systems ->
  state e1 = state e2 ->
  cube_data e1 = cube_data e2 ->
  set_lattice_system e1 name = set_lattice_system e2 name.
Proof.
  intros Hin Hs Hd. destruct e1, e2. simpl in Hs, Hd. subst.
  simpl in Hin.
  repeat (destruct Hin as [<-|Hin]; [reflexivity|]).
  contradiction.
Qed.

Lemma set_lattice_system_keeps_state {CubeData} (env : Env CubeData) name :
  state (snd (set_lattice_system env name)) = state env /\
  cube_data (snd (set_lattice_system env name)) = cube_data env.
Proof.
  unfold set_lattice_system.
  destruct (_setup_constraints (set_lattice_system_attr env name))
    as [env'|e] eqn:E; simpl.
  - destruct (_setup_constraints_configures _ E) as (_ & _ & Hs & Hd).
    now rewrite Hs, Hd.
  - split; reflexivity.
Qed.



(** X7. The last valid call wins: after any earlier call of
    [set_lattice_system], whether it succeeded or raised, a call with
    one of the seven names leaves the environment exactly as that call
    alone would have. *)
Theorem set_lattice_system_last_wins :
  forall CubeData (env : Env CubeData) (earlier name : string),
    In name lattice_systems ->
    set_lattice_system (snd (set_lattice_system env earlier)) name
    = set_lattice_system env name.
Proof.
  intros CubeData env earlier name Hin.
  destruct (set_lattice_system_keeps_state env earlier) as [Hs Hd].
  now apply set_lattice_system_frame.
Qed.

Lemma set_lattice_system_last_wins_witness :
  set_lattice_system
    (snd (set_lattice_system (env_of CUBIC (repeat 0 6)) "trigonal"))
    TETRAGONAL
  = set_lattice_system (env_of CUBIC (repeat 0 6)) TETRAGONAL.
Proof.
  apply (@set_lattice_system_last_wins unit (env_of CUBIC (repeat 0 6))
           "trigonal" TETRAGONAL).
  simpl. tauto.
Defined.



(** ** More on stepping *)

Lemma projection_constraints_resolved {CubeData} name (env : Env CubeData) v :
  constrained_by name env ->
  length v = 6%nat ->
  exists out,
    apply_projection_constraints env v = Ok out /\
    resolved (projection_tied_values env)
             (projection_fixed_values env) v out.
Proof.
  intros H Hv.
  destruct (constrained_by_ordered H) as (Hpt & Hpf & _ & _ & Hpo & _).
  apply apply_constraints_resolved; auto; lia.
Qed.

(** What [_step] does once the engine has answered with a
    six-dimensional candidate. *)
Lemma _step_outcome {CubeData Action}
  (cube_step : Env CubeData -> Action -> bool ->
               (list R * Action * bool) * (list R * CubeData))
  name (env : Env CubeData) action backward cand a valid cs data :
  constrained_by name env ->
  cube_step env action backward = ((cand, a, valid), (cs, data)) ->
  length cand = 6%nat ->
  exists out,
    apply_projection_constraints env (_state2projection env (Some cand))
    = Ok out /\
    resolved (projection_tied_values env) (projection_fixed_values env)
             (_state2projection env (Some cand)) out /\
    _step cube_step env action backward
    = (Ok (_projection2state out, a, valid),
       set_state_attr (set_cube_attrs env cs data) (_projection2state out)).
Proof.
  intros H Hcube Hlen.
  destruct (projection_constraints_resolved
              (_state2projection env (Some cand)) H
              (_state2projection_length env cand Hlen))
    as (out & Hrun & Hres).
  exists out. split; [exact Hrun|]. split; [exact Hres|].
  unfold _step. rewrite Hcube.
  change (apply_projection_constraints (set_cube_attrs env cs data)
            (_state2projection (set_cube_attrs env cs data) (Some cand)))
    with (apply_projection_constraints env
            (_state2projection env (Some cand))).
  rewrite Hrun. reflexivity.
Qed.

(** The resolved projection of a six-dimensional candidate: six
    equations between the entries of [out] and of [cand]. *)
Lemma resolved_projection_six {CubeData} name (env : Env CubeData) cand out :
  constrained_by name env ->
  length cand = 6%nat ->
  resolved (projection_tied_values env) (projection_fixed_values env)
           (_state2projection env (Some cand)) out ->
  exists c0 c1 c2 c3 c4 c5 o0 o1 o2 o3 o4 o5,
    cand = [c0; c1; c2; c3; c4; c5] /\
    out = [o0; o1; o2; o3; o4; o5] /\
    let tied := projection_tied_values env in
    let fixed := projection_fixed_values env in
    let p := [-3/2 + c0 * (3/2 - -3/2); -3/2 + c1 * (3/2 - -3/2);
              -3/2 + c2 * (3/2 - -3/2); -9/2 + c3 * (9/2 - -9/2);
              -3 + c4 * (3 - -3); -3/2 + c5 * (7 - -3/2)] in
    Some o0 = expected_at tied fixed p [o0; o1; o2; o3; o4; o5] 0 /\
    Some o1 = expected_at tied fixed p [o0; o1; o2; o3; o4; o5] 1 /\
    Some o2 = expected_at tied fixed p [o0; o1; o2; o3; o4; o5] 2 /\
    Some o3 = expected_at tied fixed p [o0; o1; o2; o3; o4; o5] 3 /\
    Some o4 = expected_at tied fixed p [o0; o1; o2; o3; o4; o5] 4 /\
    Some o5 = expected_at tied fixed p [o0; o1; o2; o3; o4; o5] 5.
Proof.
  intros H Hlen Hres.
  destruct (constrained_by_ordered H) as (Hpt & _).
  six cand Hlen.
  destruct (resolved_six Hpt Hres)
    as (o0 & o1 & o2 & o3 & o4 & o5 & -> & E).
  do 12 eexists. split; [reflexivity|]. split; [reflexivity|]. exact E.
Qed.

(** X9. On the non-ignored dimensions the constraints are transparent:
    for a six-dimensional candidate without NaN, the coordinate a step
    commits is the engine's coordinate mapped to projection space and
    back, whatever the lattice system and whatever the other
    coordinates are. (In binary64 that round trip is not always the
    identity, see [rejected_step_moves_constrained_state].) *)
Theorem step_free_dimensions_unconstrained :
  forall CubeData Action
         (cube_step : Binary64.Env CubeData -> Action -> bool ->
                      (list float * Action * bool) * (list float * CubeData))
         name (env : Binary64.Env CubeData) (action a : Action)
         (backward valid : bool) (cand cs : list float) (data : CubeData),
    Binary64.constrained_by name env ->
    cube_step env action backward = ((cand, a, valid), (cs, data)) ->
    length cand = 6%nat ->
    Forall (fun x => PrimFloat.is_nan x = false) cand ->
    exists s env',
      Binary64._step cube_step env action backward
      = (Ok (s, a, valid), env') /\
      Binary64.state env' = s /\
      forall i,
        nth_error (Binary64.ignored_dims env) i = Some false ->
        nth_error s i
        = nth_error (Binary64._projection2state
                       (Binary64._state2projection env (Some cand))) i.
Proof.
  intros CubeData Action cube_step name env action a backward valid
         cand cs data H Hcube Hlen _.
  six cand Hlen.
  unfold Binary64._step. rewrite Hcube.
  by_binary64_system H; subst name.
  all: unfold Binary64.apply_projection_constraints;
    cbn [Binary64.projection_tied_values Binary64.projection_fixed_values
         Binary64.set_cube_attrs Binary64.set_state_attr];
    rewrite <- Hptied, <- Hpfixed, <- Hign.
  all: do 2 eexists; split; [reflexivity|]; split; [reflexivity|].
  all: table_rows.
Qed.

Lemma step_free_dimensions_unconstrained_witness :
  exists s env',
    Binary64._step
      (Binary64.accepting_cube_step
         [0.125; 0.25; 0.375; 0.5; 0.625; 0.75]%float)
      (Binary64.env_of MONOCLINIC (repeat 0%float 6)) tt false
    = (Ok (s, tt, true), env') /\
    Binary64.state env' = s /\
    forall i,
      nth_error
        (Binary64.ignored_dims
           (Binary64.env_of MONOCLINIC (repeat 0%float 6))) i
      = Some false ->
      nth_error s i
      = nth_error
          (Binary64._projection2state
             (Binary64._state2projection
                (Binary64.env_of MONOCLINIC (repeat 0%float 6))
                (Some [0.125; 0.25; 0.375; 0.5; 0.625; 0.75]%float))) i.
Proof.
  apply (@step_free_dimensions_unconstrained unit unit
           (Binary64.accepting_cube_step
              [0.125; 0.25; 0.375; 0.5; 0.625; 0.75]%float)
           MONOCLINIC (Binary64.env_of MONOCLINIC (repeat 0%float 6))
           tt tt false true
           [0.125; 0.25; 0.375; 0.5; 0.625; 0.75]%float
           [0.125; 0.25; 0.375; 0.5; 0.625; 0.75]%float tt).
  - reflexivity.
  - reflexivity.
  - reflexivity.
  - repeat constructor.
Defined.

Lemma free_dim_not_ignored {CubeData} name (env : Env CubeData) i :
  constrained_by name env ->
  free_dim (projection_tied_values env) (projection_fixed_values env) i
  = true ->
  nth_error (ignored_dims env) i = Some false.
Proof.
  intros H. by_lattice_system H;
    (rewrite <- Hign, <- Hptied, <- Hpfixed;
     do 6 (destruct i as [|i];
           [first [reflexivity | intros Hi; discriminate Hi]|]);
     destruct i; intros Hi; discriminate Hi).
Qed.

Lemma _state2projection_nth {CubeData} (env : Env CubeData) c1 c2 i :
  length c1 = 6%nat ->
  length c2 = 6%nat ->
  nth_error c1 i = nth_error c2 i ->
  nth_error (_state2projection env (Some c1)) i
  = nth_error (_state2projection env (Some c2)) i.
Proof.
  intros H1 H2. six c1 H1. six c2 H2.
  unfold _state2projection. simpl.
  do 6 (destruct i as [|i]; [intros Hi; injection Hi as ->; reflexivity|]).
  destruct i; reflexivity.
Qed.

(** X11. The committed state depends on the engine's candidate only
    through its non-ignored coordinates: two candidates that agree on
    every non-ignored dimension commit the same state. *)
Theorem step_ignores_ignored_dimensions :
  forall CubeData Action
         (step1 step2 : Env CubeData -> Action -> bool ->
                        (list R * Action * bool) * (list R * CubeData))
         name (env : Env CubeData) (action a1 a2 : Action)
         (backward valid1 valid2 : bool)
         (cand1 cand2 cs1 cs2 : list R) (data1 data2 : CubeData),
    constrained_by name env ->
    step1 env action backward = ((cand1, a1, valid1), (cs1, data1)) ->
    step2 env action backward = ((cand2, a2, valid2), (cs2, data2)) ->
    length cand1 = 6%nat ->
    length cand2 = 6%nat ->
    (forall i, nth_error (ignored_dims env) i = Some false ->
               nth_error cand1 i = nth_error cand2 i) ->
    exists s env1 env2,
      _step step1 env action backward = (Ok (s, a1, valid1), env1) /\
      _step step2 env action backward = (Ok (s, a2, valid2), env2) /\
      state env1 = s /\ state env2 = s.
Proof.
  intros CubeData Action step1 step2 name env action a1 a2 backward
         valid1 valid2 cand1 cand2 cs1 cs2 data1 data2
         H Hs1 Hs2 Hl1 Hl2 Hagree.
  destruct (_step_outcome step1 action backward H Hs1 Hl1)
    as (out1 & Hrun1 & _ & ->).
  destruct (_step_outcome step2 action backward H Hs2 Hl2)
    as (out2 & Hrun2 & _ & ->).
  destruct (constrained_by_ordered H) as (Hpt & Hpf & _ & _ & Hpo & _).
  destruct (@apply_constraints_free_only _ _ _ (eq_trans Hpf (eq_sym Hpt)) Hpo
              (_state2projection env (Some cand1))
              (_state2projection env (Some cand2)))
    as (out & Ho1 & Ho2).
  - rewrite Hpt, _state2projection_length; auto.
  - rewrite Hpt, _state2projection_length; auto.
  - intros i Hi. apply _state2projection_nth; auto.
    apply Hagree. exact (free_dim_not_ignored _ H Hi).
  - unfold apply_projection_constraints in Hrun1, Hrun2.
    rewrite Ho1 in Hrun1. rewrite Ho2 in Hrun2.
    injection Hrun1 as <-. injection Hrun2 as <-.
    do 3 eexists. repeat split; reflexivity.
Qed.

Lemma step_ignores_ignored_dimensions_witness :
  exists s env1 env2,
    _step (accepting_cube_step [1/8; 1/8; 1/8; 1/8; 1/8; 3/4])
          (env_of CUBIC (repeat 0 6)) tt false = (Ok (s, tt, true), env1) /\
    _step (accepting_cube_step [7/8; 7/8; 7/8; 7/8; 7/8; 3/4])
          (env_of CUBIC (repeat 0 6)) tt false = (Ok (s, tt, true), env2) /\
    state env1 = s /\ state env2 = s.
Proof.
  apply (@step_ignores_ignored_dimensions unit unit
           (accepting_cube_step [1/8; 1/8; 1/8; 1/8; 1/8; 3/4])
           (accepting_cube_step [7/8; 7/8; 7/8; 7/8; 7/8; 3/4])
           CUBIC (env_of CUBIC (repeat 0 6)) tt tt tt false true true
           [1/8; 1/8; 1/8; 1/8; 1/8; 3/4] [7/8; 7/8; 7/8; 7/8; 7/8; 3/4]
           [1/8; 1/8; 1/8; 1/8; 1/8; 3/4] [7/8; 7/8; 7/8; 7/8; 7/8; 3/4]
           tt tt); try reflexivity.
  intros i Hi.
  do 6 (destruct i as [|i]; [first [discriminate Hi | reflexivity]|]).
  destruct i; discriminate Hi.
Defined.

Lemma _state2projection_length_le {CubeData} (env : Env CubeData) s :
  (length (_state2projection env (Some s)) <= length s)%nat.
Proof.
  unfold _state2projection, _get_state.
  do 7 (try destruct s as [|? s]); simpl; lia.
Qed.

(** The last dimension is free in projection space under every lattice
    system. *)
Lemma last_dimension_free {CubeData} name (env : Env CubeData) :
  constrained_by name env ->
  nth_error (projection_fixed_values env) 5 = Some None /\
  nth_error (projection_tied_values env) 5 = Some None.
Proof.
  intros H. by_lattice_system H;
    (rewrite <- Hptied, <- Hpfixed; split; reflexivity).
Qed.

(** X12. When the engine answers with fewer than six coordinates, the
    step raises [IndexError] and commits nothing: the environment is
    left as the engine left it. *)
Theorem step_short_candidate_raises :
  forall CubeData Action
         (cube_step : Env CubeData -> Action -> bool ->
                      (list R * Action * bool) * (list R * CubeData))
         name (env : Env CubeData) (action a : Action) (backward valid : bool)
         (cand cs : list R) (data : CubeData),
    constrained_by name env ->
    cube_step env action backward = ((cand, a, valid), (cs, data)) ->
    (length cand < 6)%nat ->
    _step cube_step env action backward
    = (Raise IndexError, set_cube_attrs env cs data).
Proof.
  intros CubeData Action cube_step name env action a backward valid
         cand cs data H Hcube Hlen.
  destruct (last_dimension_free H) as [Hf Ht].
  unfold _step. rewrite Hcube.
  change (apply_projection_constraints (set_cube_attrs env cs data)
            (_state2projection (set_cube_attrs env cs data) (Some cand)))
    with (apply_projection_constraints env
            (_state2projection env (Some cand))).
  unfold apply_projection_constraints.
  rewrite (@apply_constraints_short_input _ _ _
             (_state2projection env (Some cand)) 5 Hf Ht).
  - reflexivity.
  - pose proof (_state2projection_length_le env cand). lia.
Qed.

Lemma step_short_candidate_raises_witness :
  _step (accepting_cube_step [1/2; 1/2; 1/2])
        (env_of TRICLINIC (repeat 0 6)) tt false
  = (Raise IndexError,
     set_cube_attrs (env_of TRICLINIC (repeat 0 6)) [1/2; 1/2; 1/2] tt).
Proof.
  apply (@step_short_candidate_raises unit unit
           (accepting_cube_step [1/2; 1/2; 1/2])
           TRICLINIC (env_of TRICLINIC (repeat 0 6)) tt tt false true
           [1/2; 1/2; 1/2] [1/2; 1/2; 1/2] tt).
  - reflexivity.
  - reflexivity.
  - simpl. lia.
Defined.

Lemma ln_3_bounds : 0 < ln 3 < 2.
Proof.
  split.
  - rewrite <- ln_1. apply ln_increasing; lra.
  - rewrite <- (ln_exp 2). apply ln_increasing; [lra|].
    pose proof (exp_ineq1 2 ltac:(lra)). lra.
Qed.

(** X13. Stepping preserves validity: when the engine's candidate is a
    valid state (all six coordinates in the unit interval), so is the
    state the step commits, under every lattice system. *)
Theorem step_preserves_validity :
  forall CubeData Action
         (cube_step : Env CubeData -> Action -> bool ->
                      (list R * Action * bool) * (list R * CubeData))
         name (env : Env CubeData) (action a : Action) (backward valid : bool)
         (cand cs : list R) (data : CubeData),
    constrained_by name env ->
    cube_step env action backward = ((cand, a, valid), (cs, data)) ->
    length cand = 6%nat ->
    is_valid env (Some cand) = true ->
    exists s env',
      _step cube_step env action backward = (Ok (s, a, valid), env') /\
      state env' = s /\
      is_valid env' None = true.
Proof.
  intros CubeData Action cube_step name env action a backward valid
         cand cs data H Hcube Hlen Hvalid.
  destruct (_step_outcome cube_step action backward H Hcube Hlen)
    as (out & _ & Hres & ->).
  do 2 eexists. split; [reflexivity|]. split; [reflexivity|].
  destruct (@resolved_projection_six _ _ _ _ _ H Hlen Hres)
    as (c0 & c1 & c2 & c3 & c4 & c5 & o0 & o1 & o2 & o3 & o4 & o5
        & -> & -> & E0 & E1 & E2 & E3 & E4 & E5).
  clear Hres Hlen Hcube. unfold expected_at in E0, E1, E2, E3, E4, E5.
  pose proof ln_3_bounds as Hln.
  unfold is_valid, _state2projection, _get_state in Hvalid.
  simpl in Hvalid.
  unfold is_valid, _state2projection, _get_state, _projection2state, copy.
  by_lattice_system H;
    (rewrite <- Hptied, <- Hpfixed in *;
     simpl in E0, E1, E2, E3, E4, E5;
     injection E0 as ->; injection E1 as ->; injection E2 as ->;
     injection E3 as ->; injection E4 as ->; injection E5 as ->;
     simpl; split_bounds; check_bounds).
Qed.

Lemma step_preserves_validity_witness :
  exists s env',
    _step (accepting_cube_step [1/8; 1/4; 3/8; 1/2; 5/8; 3/4])
          (env_of HEXAGONAL (repeat 0 6)) tt false
    = (Ok (s, tt, true), env') /\
    state env' = s /\
    is_valid env' None = true.
Proof.
  apply (@step_preserves_validity unit unit
           (accepting_cube_step [1/8; 1/4; 3/8; 1/2; 5/8; 3/4])
           HEXAGONAL (env_of HEXAGONAL (repeat 0 6)) tt tt false true
           [1/8; 1/4; 3/8; 1/2; 5/8; 3/4]
           [1/8; 1/4; 3/8; 1/2; 5/8; 3/4] tt).
  - reflexivity.
  - reflexivity.
  - reflexivity.
  - unfold is_valid, _state2projection, _get_state. simpl. check_bounds.
Defined.

(** X14. The lattice parameters do not depend on the ignored
    coordinates of the state: two six-dimensional states that agree on
    every non-ignored dimension have the same [state2lattice]. *)
Theorem state2lattice_ignores_ignored_dimensions :
  forall CubeData (expm : matrix -> matrix) name (env : Env CubeData)
         (s1 s2 : list R),
    constrained_by name env ->
    length s1 = 6%nat ->
    length s2 = 6%nat ->
    (forall i, nth_error (ignored_dims env) i = Some false ->
               nth_error s1 i = nth_error s2 i) ->
    state2lattice expm env (Some s1) = state2lattice expm env (Some s2).
Proof.
  intros CubeData expm name env s1 s2 H Hl1 Hl2 Hagree.
  destruct (constrained_by_ordered H) as (Hpt & Hpf & _ & _ & Hpo & _).
  destruct (@apply_constraints_free_only _ _ _ (eq_trans Hpf (eq_sym Hpt)) Hpo
              (_state2projection env (Some s1))
              (_state2projection env (Some s2)))
    as (out & Ho1 & Ho2).
  - rewrite Hpt, _state2projection_length; auto.
  - rewrite Hpt, _state2projection_length; auto.
  - intros i Hi. apply _state2projection_nth; auto.
    apply Hagree. exact (free_dim_not_ignored _ H Hi).
  - unfold state2lattice, apply_projection_constraints, _get_state.
    now rewrite Ho1, Ho2.
Qed.

Lemma state2lattice_ignores_ignored_dimensions_witness :
  state2lattice (fun m => m) (env_of TETRAGONAL (repeat 0 6))
                (Some [1/8; 1/8; 1/8; 1/8; 1/4; 3/4])
  = state2lattice (fun m => m) (env_of TETRAGONAL (repeat 0 6))
                  (Some [7/8; 7/8; 7/8; 7/8; 1/4; 3/4]).
Proof.
  apply (@state2lattice_ignores_ignored_dimensions unit (fun m => m)
           TETRAGONAL (env_of TETRAGONAL (repeat 0 6))
           [1/8; 1/8; 1/8; 1/8; 1/4; 3/4] [7/8; 7/8; 7/8; 7/8; 1/4; 3/4]);
    try reflexivity.
  intros i Hi.
  do 6 (destruct i as [|i]; [first [discriminate Hi | reflexivity]|]).
  destruct i; discriminate Hi.
Defined.

(** * The linear environment *)

(** X19. [_setup_constraints] of [LatticeParameters] returns only for
    one of the seven lattice systems. It raises [ValueError] exactly
    for the other names, before assigning anything; its only other
    exception is [ZeroDivisionError], for a valid name when the angle
    range is zero; the [NotImplementedError] branch is never taken. *)
Theorem linear_setup_outcome :
  forall CubeData (env : LatticeParameters.Env CubeData),
    match LatticeParameters._setup_constraints env with
    | (LatticeParameters.Ok _, _) =>
        In (LatticeParameters.lattice_system env) lattice_systems
    | (LatticeParameters.Raise e, env') =>
        (e = LatticeParameters.ValueError
               (LatticeParameters.lattice_system env
                ++ " is not a valid lattice system")
         /\ ~ In (LatticeParameters.lattice_system env) lattice_systems
         /\ env' = env)
        \/ (e = LatticeParameters.ZeroDivisionError
            /\ LatticeParameters.angle_range env = 0
            /\ In (LatticeParameters.lattice_system env) lattice_systems)
    end.
Proof.
  intros CubeData env.
  destruct env as [name minl maxl lr mina maxa ar at_ ign st src data].
  cbn [LatticeParameters.lattice_system LatticeParameters.angle_range].
  destruct (in_dec string_dec name lattice_systems) as [Hin|Hnot].
  - simpl in Hin.
    repeat (destruct Hin as [<-|Hin];
            [linear_run;
             repeat match goal with
               | |- context [Req_dec_T ar 0] =>
                   destruct (Req_dec_T ar 0); [|try contradiction]; cbn
               end;
             first [ tauto | right; repeat split; auto; tauto ]|]).
    contradiction.
  - destruct (@not_a_lattice_system _ Hnot)
      as (E1 & E2 & E3 & E4 & E5 & E6 & E7).
    linear_run. rewrite E1, E2, E3, E4, E5, E6, E7. cbn.
    left. repeat split; auto.
Qed.

Lemma linear_setup_with_state {CubeData}
  (env env' : LatticeParameters.Env CubeData) r s data :
  LatticeParameters._setup_constraints env = (r, env') ->
  LatticeParameters._setup_constraints (LatticeParameters.with_state env s data)
  = (r, LatticeParameters.with_state env' s data).
Proof.
  destruct env as [name minl maxl lr mina maxa ar at_ ign st src d].
  intros H. linear_run. unfold LatticeParameters._setup_constraints in H.
  unfold LatticeParameters.name_in, LatticeParameters.fix_angle,
    LatticeParameters._angle2statevalue, LatticeParameters.bindM,
    LatticeParameters.assign, LatticeParameters.read,
    LatticeParameters.ret, LatticeParameters.raise in H.
  cbn in H.
  repeat linear_branch H; cbn; rewrite ?Ename, ?Ename0, ?Ename1, ?Ename2,
    ?Ename3, ?Ename4, ?Ename5; cbn.
  all: repeat match type of H with
         | context [Req_dec_T ?r 0] =>
             destruct (Req_dec_T r 0); cbn in H; cbn
         end.
  all: injection H as <- <-; reflexivity.
Qed.

Lemma configured_with_state {CubeData}
  (env : LatticeParameters.Env CubeData) s data :
  LatticeParameters.configured env ->
  LatticeParameters.configured (LatticeParameters.with_state env s data).
Proof.
  intros (env' & Hrun & Hign & Hattrs).
  exists (LatticeParameters.with_state env' s data).
  split; [exact (@linear_setup_with_state _ _ _ _ s data Hrun)|].
  split; [exact Hign | exact Hattrs].
Qed.

Lemma linear_setup_configures {CubeData}
  (env env' : LatticeParameters.Env CubeData) :
  LatticeParameters._setup_constraints env = (LatticeParameters.Ok tt, env') ->
  LatticeParameters.configured env' /\
  LatticeParameters.lattice_system env' = LatticeParameters.lattice_system env /\
  LatticeParameters.state env' = LatticeParameters.state env /\
  LatticeParameters.source env' = LatticeParameters.source env /\
  LatticeParameters.cube_data env' = LatticeParameters.cube_data env /\
  LatticeParameters.min_length env' = LatticeParameters.min_length env /\
  LatticeParameters.length_range env' = LatticeParameters.length_range env /\
  LatticeParameters.min_angle env' = LatticeParameters.min_angle env /\
  LatticeParameters.angle_range env' = LatticeParameters.angle_range env.
Proof.
  destruct env as [name minl maxl lr mina maxa ar at_ ign st src d].
  intros Hrun.
  unfold LatticeParameters._setup_constraints,
    LatticeParameters.name_in, LatticeParameters.fix_angle,
    LatticeParameters._angle2statevalue, LatticeParameters.bindM,
    LatticeParameters.assign, LatticeParameters.read,
    LatticeParameters.ret, LatticeParameters.raise in Hrun.
  cbn in Hrun.
  repeat linear_branch Hrun;
    linear_zero_range Hrun;
    try discriminate Hrun;
    injection Hrun as <-;
    (split; [|cbn; repeat split; reflexivity]);
    (eexists; split;
     [ linear_run;
       repeat match goal with
         | |- context [Req_dec_T ?r 0] =>
             destruct (Req_dec_T r 0); [contradiction|]; cbn
         end;
       reflexivity
     | split; [reflexivity | intros p; destruct p; reflexivity] ]).
Qed.

Lemma linear_setup_valid {CubeData} (env : LatticeParameters.Env CubeData) :
  In (LatticeParameters.lattice_system env) lattice_systems ->
  LatticeParameters.angle_range env <> 0 ->
  exists env',
    LatticeParameters._setup_constraints env = (LatticeParameters.Ok tt, env').
Proof.
  destruct env as [name minl maxl lr mina maxa ar at_ ign st src d].
  cbn. intros Hin Har.
  repeat (destruct Hin as [<-|Hin];
          [linear_run;
           repeat match goal with
             | |- context [Req_dec_T ?r 0] =>
                 destruct (Req_dec_T r 0); [contradiction|]; cbn
             end;
           eexists; reflexivity|]).
  contradiction.
Qed.

(** On a configured environment, each dimension is either not ignored
    and read from its own coordinate, or ignored and read from an
    earlier non-ignored coordinate, or ignored and fixed. *)
Lemma configured_invariant {CubeData} (env : LatticeParameters.Env CubeData) :
  LatticeParameters.configured env ->
  length (LatticeParameters.ignored_dims env) = 6%nat /\
  forall i p,
    nth_error LatticeParameters.PARAMETER_NAMES i = Some p ->
    (nth_error (LatticeParameters.ignored_dims env) i = Some false /\
     LatticeParameters._get_index_of_param env p = Some i) \/
    (nth_error (LatticeParameters.ignored_dims env) i = Some true /\
     exists j,
       LatticeParameters._get_index_of_param env p = Some j /\
       (j < i)%nat /\
       nth_error (LatticeParameters.ignored_dims env) j = Some false) \/
    (nth_error (LatticeParameters.ignored_dims env) i = Some true /\
     LatticeParameters._get_index_of_param env p = None /\
     exists x,
       LatticeParameters.attr_value (LatticeParameters.attrs env p) = Some x /\
       LatticeParameters.attr_state (LatticeParameters.attrs env p)
       = Some ((x - LatticeParameters.min_angle env)
               / LatticeParameters.angle_range env)).
Proof.
  destruct env as [name minl maxl lr mina maxa ar at_ ign st src d].
  intros H. linear_cases H ign;
    (split; [reflexivity|];
     intros i p Hp;
     do 6 (destruct i as [|i];
           [injection Hp as <-; linear_idx;
            first
              [ left; split; reflexivity
              | right; left; split; [reflexivity|];
                eexists; split; [reflexivity|]; split; [lia | reflexivity]
              | right; right; split; [reflexivity|]; split; [reflexivity|];
                eexists; split;
                first [symmetry; eassumption | reflexivity] ]|]);
     destruct i; discriminate Hp).
Qed.

(** X20. For one of the seven names and a non-zero angle range,
    [_setup_constraints] of [LatticeParameters] returns, keeps the
    state, the source and the name, and leaves the constraint
    attributes consistent: six ignored flags; a dimension that is not
    ignored is read from its own coordinate; an ignored dimension is
    read from an earlier non-ignored coordinate, or has no index and a
    fixed value whose state value is [(value - min_angle) /
    angle_range]. *)
Theorem linear_setup_postcondition :
  forall CubeData (env : LatticeParameters.Env CubeData),
    In (LatticeParameters.lattice_system env) lattice_systems ->
    LatticeParameters.angle_range env <> 0 ->
    exists env',
      LatticeParameters._setup_constraints env
      = (LatticeParameters.Ok tt, env') /\
      LatticeParameters.lattice_system env'
      = LatticeParameters.lattice_system env /\
      LatticeParameters.state env' = LatticeParameters.state env /\
      LatticeParameters.source env' = LatticeParameters.source env /\
      length (LatticeParameters.ignored_dims env') = 6%nat /\
      forall i p,
        nth_error LatticeParameters.PARAMETER_NAMES i = Some p ->
        (nth_error (LatticeParameters.ignored_dims env') i = Some false /\
         LatticeParameters._get_index_of_param env' p = Some i) \/
        (nth_error (LatticeParameters.ignored_dims env') i = Some true /\
         exists j,
           LatticeParameters._get_index_of_param env' p = Some j /\
           (j < i)%nat /\
           nth_error (LatticeParameters.ignored_dims env') j = Some false) \/
        (nth_error (LatticeParameters.ignored_dims env') i = Some true /\
         LatticeParameters._get_index_of_param env' p = None /\
         exists x,
           LatticeParameters.attr_value (LatticeParameters.attrs env' p)
           = Some x /\
           LatticeParameters.attr_state (LatticeParameters.attrs env' p)
           = Some ((x - LatticeParameters.min_angle env')
                   / LatticeParameters.angle_range env')).
Proof.
  intros CubeData env Hin Har.
  destruct (linear_setup_valid env Hin Har) as (env' & Hrun).
  exists env'. split; [exact Hrun|].
  destruct (@linear_setup_configures _ _ _ Hrun) as (Hc & Hn & Hs & Hsrc & _).
  destruct (@configured_invariant _ _ Hc) as (Hlen & Hinv).
  repeat split; assumption.
Qed.

Lemma linear_setup_postcondition_witness :
  exists env',
    LatticeParameters._setup_constraints
      (LatticeParameters.with_lattice_system
         (linear_env_of TRICLINIC (repeat 0 6)) HEXAGONAL)
    = (LatticeParameters.Ok tt, env') /\
    LatticeParameters.lattice_system env' = HEXAGONAL /\
    LatticeParameters.state env' = repeat 0 6 /\
    LatticeParameters.source env' = repeat 0 6 /\
    length (LatticeParameters.ignored_dims env') = 6%nat.
Proof.
  destruct (@linear_setup_postcondition unit
              (LatticeParameters.with_lattice_system
                 (linear_env_of TRICLINIC (repeat 0 6)) HEXAGONAL))
    as (env' & Hrun & Hn & Hs & Hsrc & Hlen & _).
  - simpl. tauto.
  - unfold linear_env_of, LatticeParameters.__init__, linear_cube_init.
    linear_run. lra.
  - exists env'. repeat split; assumption.
Defined.

(** X21. One step of [LatticeParameters] on a configured environment,
    for a six-dimensional candidate: the step returns and commits a
    six-dimensional state in which a non-ignored dimension keeps the
    candidate's coordinate, and an ignored dimension receives the
    candidate's coordinate at its parameter's index, or the fixed
    state value when the parameter has no index. *)
Theorem linear_step_commits :
  forall CubeData Action
         (cube_step : LatticeParameters.Env CubeData -> Action -> bool ->
                      (list R * Action * bool) * (list R * CubeData))
         (env : LatticeParameters.Env CubeData) (action a : Action)
         (backward valid : bool) (cand cs : list R) (data : CubeData),
    LatticeParameters.configured env ->
    cube_step env action backward = ((cand, a, valid), (cs, data)) ->
    length cand = 6%nat ->
    exists s env',
      LatticeParameters._step cube_step env action backward
      = LatticeParameters.Ok ((s, a, valid), env') /\
      LatticeParameters.state env' = s /\
      length s = 6%nat /\
      LatticeParameters.configured env' /\
      forall i p,
        nth_error LatticeParameters.PARAMETER_NAMES i = Some p ->
        nth_error s i
        = match nth_error (LatticeParameters.ignored_dims env) i with
          | Some false => nth_error cand i
          | _ =>
              match LatticeParameters._get_index_of_param env p with
              | Some j => nth_error cand j
              | None =>
                  LatticeParameters.attr_state (LatticeParameters.attrs env p)
              end
          end.
Proof.
  intros CubeData Action cube_step env action a backward valid cand cs data
         H Hcube Hlen.
  pose proof (fun s => @configured_with_state _ env s data H) as Hkeep.
  unfold LatticeParameters._step. rewrite Hcube. clear Hcube.
  six cand Hlen.
  destruct env as [name minl maxl lr mina maxa ar at_ ign st src d].
  linear_cases H ign;
    (unfold LatticeParameters.enumerate; cbn;
     linear_idx;
     do 2 eexists; split; [reflexivity|];
     split; [reflexivity|]; split; [reflexivity|];
     split; [apply Hkeep|];
     intros i p Hp;
     do 6 (destruct i as [|i];
           [injection Hp as <-; linear_idx; reflexivity|]);
     destruct i; discriminate Hp).
Qed.

Lemma linear_env_of_configured (name : string) (src : list R) :
  In name lattice_systems ->
  LatticeParameters.configured (linear_env_of name src) /\
  LatticeParameters.state (linear_env_of name src) = src /\
  LatticeParameters.source (linear_env_of name src) = src /\
  LatticeParameters.angle_range (linear_env_of name src) = 150 - 50.
Proof.
  intros Hin.
  unfold linear_env_of, LatticeParameters.__init__, linear_cube_init.
  cbn [LatticeParameters.bind].
  destruct (@linear_setup_valid unit
              (LatticeParameters.mkEnv name 1 350 (350 - 1) 50 150 (150 - 50)
                 (fun _ => LatticeParameters.no_attrs)
                 (repeat false 6) src src tt) Hin) as (env' & Hrun).
  { cbn. lra. }
  rewrite Hrun.
  destruct (@linear_setup_configures _ _ _ Hrun)
    as (Hc & _ & Hs & Hsrc & _ & _ & _ & _ & Har).
  repeat split; assumption.
Qed.

Lemma linear_step_commits_witness :
  exists s env',
    LatticeParameters._step
      (linear_cube_step [1/8; 1/4; 3/8; 1/2; 5/8; 3/4])
      (linear_env_of RHOMBOHEDRAL (repeat 0 6)) tt false
    = LatticeParameters.Ok ((s, tt, true), env') /\
    LatticeParameters.state env' = s /\
    length s = 6%nat /\
    LatticeParameters.configured env'.
Proof.
  destruct (@linear_step_commits unit unit
              (linear_cube_step [1/8; 1/4; 3/8; 1/2; 5/8; 3/4])
              (linear_env_of RHOMBOHEDRAL (repeat 0 6)) tt tt false true
              [1/8; 1/4; 3/8; 1/2; 5/8; 3/4]
              [1/8; 1/4; 3/8; 1/2; 5/8; 3/4] tt)
    as (s & env' & Hstep & Hs & Hlen & Hc & _).
  - apply linear_env_of_configured. simpl. tauto.
  - reflexivity.
  - reflexivity.
  - exists s, env'. repeat split; assumption.
Defined.

(** X22. A fixed angle outlives the lattice system that set it: when a
    parameter has a value attribute and [set_lattice_system] switches
    to the triclinic system, no dimension is ignored any more, yet
    [_get_param] still returns that value for every state. *)
Theorem linear_fixed_value_survives :
  forall CubeData (env env' : LatticeParameters.Env CubeData)
         (p : LatticeParameters.param) (x : R),
    LatticeParameters.attr_value (LatticeParameters.attrs env p) = Some x ->
    LatticeParameters.set_lattice_system TRICLINIC env
    = (LatticeParameters.Ok tt, env') ->
    LatticeParameters.ignored_dims env' = repeat false 6 /\
    forall s, LatticeParameters._get_param env' s p = LatticeParameters.Ok x.
Proof.
  intros CubeData env env' p x Hval Hset.
  destruct env as [name minl maxl lr mina maxa ar at_ ign st src d].
  cbn in Hval.
  unfold LatticeParameters.set_lattice_system in Hset.
  unfold LatticeParameters._setup_constraints,
    LatticeParameters.name_in, LatticeParameters.fix_angle,
    LatticeParameters._angle2statevalue, LatticeParameters.bindM,
    LatticeParameters.assign, LatticeParameters.read,
    LatticeParameters.ret, LatticeParameters.raise in Hset.
  cbn in Hset. injection Hset as <-.
  split; [reflexivity|].
  intros s. unfold LatticeParameters._get_param.
  destruct p; cbn; rewrite Hval; reflexivity.
Qed.

Lemma linear_fixed_value_survives_witness :
  exists env',
    LatticeParameters.set_lattice_system TRICLINIC
      (linear_env_of CUBIC (repeat 0 6))
    = (LatticeParameters.Ok tt, env') /\
    LatticeParameters.ignored_dims env' = repeat false 6 /\
    forall s,
      LatticeParameters._get_param env' s LatticeParameters.P_alpha
      = LatticeParameters.Ok 90.
Proof.
  destruct (@linear_env_of_configured CUBIC (repeat 0 6))
    as (_ & _ & _ & Har); [simpl; tauto|].
  destruct (@linear_setup_valid unit
              (LatticeParameters.with_lattice_system
                 (linear_env_of CUBIC (repeat 0 6)) TRICLINIC))
    as (env' & Hrun).
  { simpl. tauto. }
  { change (LatticeParameters.angle_range
              (linear_env_of CUBIC (repeat 0 6)) <> 0).
    rewrite Har. lra. }
  exists env'. split; [exact Hrun|].
  apply (@linear_fixed_value_survives unit
           (linear_env_of CUBIC (repeat 0 6)) env'
           LatticeParameters.P_alpha 90).
  - unfold linear_env_of, LatticeParameters.__init__, linear_cube_init.
    linear_run. linear_nonzero. reflexivity.
  - exact Hrun.
Defined.

(** The attributes of a freshly built cubic environment. *)
Lemma linear_fresh_cubic {CubeData Kwargs}
  (cube_init :
     Kwargs -> LatticeParameters.result (list R * list bool * CubeData))
  (kwargs : Kwargs) (minl maxl mina maxa : R)
  (env : LatticeParameters.Env CubeData) :
  LatticeParameters.__init__ cube_init CUBIC minl maxl mina maxa kwargs
  = LatticeParameters.Ok env ->
  LatticeParameters.min_length env = minl /\
  LatticeParameters.length_range env = maxl - minl /\
  (forall p, LatticeParameters.is_length p = true ->
             LatticeParameters.attr_value (LatticeParameters.attrs env p)
             = None /\
             LatticeParameters._get_index_of_param env p = Some 0%nat) /\
  (forall p, LatticeParameters.is_length p = false ->
             LatticeParameters.attr_value (LatticeParameters.attrs env p)
             = Some 90 /\
             LatticeParameters._get_index_of_param env p = None).
Proof.
  intros Hinit. unfold LatticeParameters.__init__ in Hinit.
  destruct (cube_init kwargs) as [[[src ign] data]|e];
    [|discriminate Hinit].
  cbn [LatticeParameters.bind] in Hinit.
  unfold LatticeParameters._setup_constraints,
    LatticeParameters.name_in, LatticeParameters.fix_angle,
    LatticeParameters._angle2statevalue, LatticeParameters.bindM,
    LatticeParameters.assign, LatticeParameters.read,
    LatticeParameters.ret, LatticeParameters.raise in Hinit.
  cbn in Hinit. linear_zero_range Hinit; try discriminate Hinit.
  injection Hinit as <-.
  repeat split; try reflexivity;
    destruct p; first [reflexivity | discriminate].
Qed.

Lemma linear_set_length {CubeData} (env : LatticeParameters.Env CubeData)
  (s : list R) p (v : R) (i : nat) :
  LatticeParameters._get_index_of_param env p = Some i ->
  LatticeParameters.is_length p = true ->
  LatticeParameters.length_range env <> 0 ->
  LatticeParameters._set_param env s p v
  = LatticeParameters.setitem s i
      ((v - LatticeParameters.min_length env)
       / LatticeParameters.length_range env).
Proof.
  intros Hi Hp Hr.
  unfold LatticeParameters._set_param, LatticeParameters._length2statevalue.
  rewrite Hi, Hp.
  destruct (Req_dec_T (LatticeParameters.length_range env) 0);
    [contradiction | reflexivity].
Qed.

Lemma linear_set_unindexed {CubeData} (env : LatticeParameters.Env CubeData)
  (s : list R) p (v : R) :
  LatticeParameters._get_index_of_param env p = None ->
  LatticeParameters._set_param env s p v = LatticeParameters.Ok s.
Proof.
  intros Hi. unfold LatticeParameters._set_param. now rewrite Hi.
Qed.

Lemma linear_get_fixed {CubeData} (env : LatticeParameters.Env CubeData)
  (s : list R) p (x : R) :
  LatticeParameters.attr_value (LatticeParameters.attrs env p) = Some x ->
  LatticeParameters._get_param env s p = LatticeParameters.Ok x.
Proof.
  intros Hv. unfold LatticeParameters._get_param. now rewrite Hv.
Qed.

Lemma linear_get_length {CubeData} (env : LatticeParameters.Env CubeData)
  (s : list R) p (i : nat) (x : R) :
  LatticeParameters.attr_value (LatticeParameters.attrs env p) = None ->
  LatticeParameters._get_index_of_param env p = Some i ->
  LatticeParameters.is_length p = true ->
  nth_error s i = Some x ->
  LatticeParameters._get_param env s p
  = LatticeParameters.Ok
      (LatticeParameters.min_length env
       + x * LatticeParameters.length_range env).
Proof.
  intros Hv Hi Hp Hx.
  unfold LatticeParameters._get_param, LatticeParameters.getitem_opt,
    LatticeParameters.getitem.
  now rewrite Hv, Hi, Hp, Hx.
Qed.

Lemma linear_env_of_init (name : string) (src : list R) :
  In name lattice_systems ->
  LatticeParameters.__init__ (linear_cube_init src) name 1 350 50 150 tt
  = LatticeParameters.Ok (linear_env_of name src).
Proof.
  intros Hin.
  unfold linear_env_of, LatticeParameters.__init__, linear_cube_init.
  cbn [LatticeParameters.bind].
  destruct (@linear_setup_valid unit
              (LatticeParameters.mkEnv name 1 350 (350 - 1) 50 150 (150 - 50)
                 (fun _ => LatticeParameters.no_attrs)
                 (repeat false 6) src src tt) Hin) as (env' & Hrun).
  { cbn. lra. }
  rewrite Hrun. reflexivity.
Qed.

(** X24. On a freshly built cubic environment the three lengths share
    state coordinate 0 and the angles are fixed, so [parameters2state]
    keeps only the last length it writes: reading the state back gives
    three times the same length, the one [_statevalue2length] returns
    for the state value of the third length, and the stored 90 for
    each angle, whatever the other five parameters were. *)
Theorem linear_cubic_keeps_last_length :
  forall CubeData Kwargs
         (cube_init :
            Kwargs -> LatticeParameters.result (list R * list bool * CubeData))
         (kwargs : Kwargs) (minl maxl mina maxa : R)
         (env : LatticeParameters.Env CubeData)
         (a b c alpha beta gamma : R),
    LatticeParameters.__init__ cube_init CUBIC minl maxl mina maxa kwargs
    = LatticeParameters.Ok env ->
    length (LatticeParameters.source env) = 6%nat ->
    maxl - minl <> 0 ->
    exists s x,
      LatticeParameters.parameters2state env
        (Some [a; b; c; alpha; beta; gamma]) None None
      = LatticeParameters.Ok s /\
      LatticeParameters._length2statevalue env c = LatticeParameters.Ok x /\
      nth_error s 0 = Some x /\
      LatticeParameters._unpack_lengths_angles env (Some s)
      = LatticeParameters.Ok
          ([LatticeParameters._statevalue2length env x;
            LatticeParameters._statevalue2length env x;
            LatticeParameters._statevalue2length env x],
           [90; 90; 90]).
Proof.
  intros CubeData Kwargs cube_init kwargs minl maxl mina maxa env
         a b c alpha beta gamma Hinit Hsrc Hl.
  destruct (linear_fresh_cubic _ _ _ _ _ _ Hinit)
    as (Hml & Hlr & Hlen & Hang).
  rewrite <- Hlr in Hl.
  unfold LatticeParameters.parameters2state,
    LatticeParameters._unpack_lengths_angles,
    LatticeParameters._get_state.
  cbn [LatticeParameters.bind]. unfold copy.
  remember (LatticeParameters.source env) as src eqn:Esrc.
  six src Hsrc.
  cbn [LatticeParameters.PARAMETER_NAMES
         LatticeParameters.LENGTH_PARAMETER_NAMES
         LatticeParameters.ANGLE_PARAMETER_NAMES app combine
         LatticeParameters.set_params LatticeParameters.map_result].
  rewrite (linear_set_length env _ _ a
             (proj2 (Hlen LatticeParameters.P_a eq_refl)) eq_refl Hl).
  cbn [LatticeParameters.setitem LatticeParameters.bind].
  rewrite (linear_set_length env _ _ b
             (proj2 (Hlen LatticeParameters.P_b eq_refl)) eq_refl Hl).
  cbn [LatticeParameters.setitem LatticeParameters.bind].
  rewrite (linear_set_length env _ _ c
             (proj2 (Hlen LatticeParameters.P_c eq_refl)) eq_refl Hl).
  cbn [LatticeParameters.setitem LatticeParameters.bind].
  do 3 (rewrite linear_set_unindexed by (apply Hang; reflexivity);
        cbn [LatticeParameters.bind]).
  do 2 eexists. split; [reflexivity|].
  split.
  { unfold LatticeParameters._length2statevalue.
    destruct (Req_dec_T (LatticeParameters.length_range env) 0);
      [contradiction | reflexivity]. }
  split; [reflexivity|].
  erewrite (@linear_get_length _ env _ LatticeParameters.P_a 0%nat)
    by first [apply Hlen; reflexivity | reflexivity].
  erewrite (@linear_get_length _ env _ LatticeParameters.P_b 0%nat)
    by first [apply Hlen; reflexivity | reflexivity].
  erewrite (@linear_get_length _ env _ LatticeParameters.P_c 0%nat)
    by first [apply Hlen; reflexivity | reflexivity].
  rewrite !(@linear_get_fixed _ env _ _ 90) by (apply Hang; reflexivity).
  cbn [LatticeParameters.bind].
  reflexivity.
Qed.

Lemma linear_cubic_keeps_last_length_witness :
  exists s x,
    LatticeParameters.parameters2state (linear_env_of CUBIC (repeat 0 6))
      (Some [4; 5; 6; 80; 90; 100]) None None
    = LatticeParameters.Ok s /\
    LatticeParameters._length2statevalue (linear_env_of CUBIC (repeat 0 6)) 6
    = LatticeParameters.Ok x /\
    nth_error s 0 = Some x /\
    LatticeParameters._unpack_lengths_angles
      (linear_env_of CUBIC (repeat 0 6)) (Some s)
    = LatticeParameters.Ok
        ([LatticeParameters._statevalue2length
            (linear_env_of CUBIC (repeat 0 6)) x;
          LatticeParameters._statevalue2length
            (linear_env_of CUBIC (repeat 0 6)) x;
          LatticeParameters._statevalue2length
            (linear_env_of CUBIC (repeat 0 6)) x],
         [90; 90; 90]).
Proof.
  apply (@linear_cubic_keeps_last_length unit unit
           (linear_cube_init (repeat 0 6)) tt 1 350 50 150
           (linear_env_of CUBIC (repeat 0 6)) 4 5 6 80 90 100).
  - apply linear_env_of_init. simpl. tauto.
  - rewrite (proj1 (proj2 (proj2
               (@linear_env_of_configured CUBIC (repeat 0 6)
                  ltac:(simpl; tauto))))).
    reflexivity.
  - lra.
Defined.

(** * Batches of indices *)

Lemma indices_empty (lo hi : Z) : (hi <= lo)%Z -> indices lo hi = [].
Proof.
  intros H. unfold indices.
  replace (Z.to_nat (hi - lo)) with 0%nat by lia. reflexivity.
Qed.

Lemma indices_length (lo hi : Z) :
  length (indices lo hi) = Z.to_nat (hi - lo).
Proof. unfold indices. now rewrite length_map, length_seq. Qed.

Lemma seq_from (m n : nat) :
  seq m n = map (fun k => (m + k)%nat) (seq 0 n).
Proof.
  revert m. induction n as [|n IH]; intros m; [reflexivity|].
  simpl. rewrite Nat.add_0_r. f_equal.
  rewrite <- (seq_shift n 0), map_map, (IH (S m)).
  apply map_ext. intros k. lia.
Qed.

Lemma indices_app (lo mid hi : Z) :
  (lo <= mid <= hi)%Z ->
  indices lo hi = indices lo mid ++ indices mid hi.
Proof.
  intros H. unfold indices.
  replace (Z.to_nat (hi - lo))
    with (Z.to_nat (mid - lo) + Z.to_nat (hi - mid))%nat by lia.
  rewrite seq_app, map_app. f_equal.
  rewrite (seq_from (0 + Z.to_nat (mid - lo))), map_map.
  apply map_ext. intros k. lia.
Qed.

Lemma range_length_positive_step (start stop step : Z) :
  (0 < step)%Z ->
  range_length start stop step
  = if (start <? stop)%Z then ((stop - start - 1) / step + 1)%Z else 0%Z.
Proof.
  intros H. unfold range_length.
  now rewrite (proj2 (Z.ltb_lt 0 step) H).
Qed.

Lemma range_length_negative_step (start stop step : Z) :
  (step < 0)%Z ->
  range_length start stop step
  = if (stop <? start)%Z then ((start - stop - 1) / (- step) + 1)%Z
    else 0%Z.
Proof.
  intros H. unfold range_length.
  now rewrite (proj2 (Z.ltb_ge 0 step)) by lia.
Qed.

(** The batches of a positive step, [n] of them from [start] on, when
    the array library returns the indices between the bounds it is
    given. *)
Lemma yield_batches_positive_step {E}
  (np_arange torch_arange : Z -> Z -> E + list Z)
  (first stop step : Z) (tensor : bool) :
  (0 < step)%Z ->
  (forall lo hi,
      (first <= lo)%Z -> (lo < hi)%Z -> (hi <= stop)%Z ->
      (if tensor then torch_arange lo hi else np_arange lo hi)
      = inr (indices lo hi)) ->
  forall n start,
    (first <= start)%Z ->
    Z.of_nat n = range_length start stop step ->
    exists batches,
      yield_batches np_arange torch_arange stop step tensor
        (map (fun k => (start + Z.of_nat k * step)%Z) (seq 0 n))
      = (batches, None) /\
      concat batches = indices start stop /\
      Forall (fun b => (0 < length b <= Z.to_nat step)%nat) batches.
Proof.
  intros Hstep Hlib. induction n as [|n IH]; intros start Hfirst Hn;
    rewrite range_length_positive_step in Hn by exact Hstep.
  - exists []. split; [reflexivity|]. split; [|constructor].
    simpl. symmetry. apply indices_empty.
    destruct (Z.ltb_spec start stop) as [Hlt|Hge]; [|lia].
    assert (0 <= (stop - start - 1) / step)%Z
      by (apply Z.div_pos; lia).
    lia.
  - destruct (Z.ltb_spec start stop) as [Hlt|Hge]; [|lia].
    cbn [seq map yield_batches].
    replace (start + Z.of_nat 0 * step)%Z with start by lia.
    assert (Hcall :
              (if tensor
               then torch_arange start (Z.min (start + step) stop)
               else np_arange start (Z.min (start + step) stop))
              = inr (indices start (Z.min (start + step) stop)))
      by (apply Hlib; lia).
    rewrite Hcall.
    rewrite <- seq_shift, map_map.
    rewrite (map_ext _ (fun k => (start + step + Z.of_nat k * step)%Z))
      by (intros k; lia).
    destruct (IH (start + step)%Z) as (batches & Hrun & Hcat & Hall).
    + lia.
    + rewrite range_length_positive_step by exact Hstep.
      destruct (Z.ltb_spec (start + step) stop) as [Hmore|Hlast].
      * replace (stop - (start + step) - 1)%Z
          with (stop - start - 1 + (-1) * step)%Z by lia.
        rewrite Z.div_add by lia. lia.
      * rewrite Z.div_small in Hn by lia. lia.
    + rewrite Hrun. eexists. split; [reflexivity|]. split.
      * cbn [concat]. rewrite Hcat.
        destruct (Z.le_gt_cases stop (start + step)) as [Hlast|Hmore].
        -- rewrite Z.min_r by lia.
           rewrite (@indices_empty (start + step)%Z stop) by lia.
           now rewrite app_nil_r.
        -- rewrite Z.min_l by lia. symmetry. apply indices_app. lia.
      * constructor; [|exact Hall].
        rewrite indices_length. lia.
Qed.

(** X25. With a positive step, and an array library that returns the
    indices between any two bounds it is given from the interval
    [start .. stop], [batch_with_rest] runs to its end without an
    exception, and the batches it yields, put end to end, are exactly
    the indices [start, ..., stop - 1] in order; every batch is
    non-empty and has at most [step] indices. *)
Theorem batch_with_rest_partitions :
  forall (E : Type) (np_arange torch_arange : Z -> Z -> E + list Z)
         (start stop step : Z) (tensor : bool),
    (0 < step)%Z ->
    (forall lo hi,
        (start <= lo)%Z -> (lo < hi)%Z -> (hi <= stop)%Z ->
        (if tensor then torch_arange lo hi else np_arange lo hi)
        = inr (indices lo hi)) ->
    exists batches,
      batch_with_rest np_arange torch_arange start stop step tensor
      = (batches, None) /\
      concat batches = indices start stop /\
      Forall (fun b => (0 < length b <= Z.to_nat step)%nat) batches.
Proof.
  intros E np_arange torch_arange start stop step tensor Hstep Hlib.
  unfold batch_with_rest, py_range.
  rewrite (proj2 (Z.eqb_neq step 0)) by lia.
  apply (@yield_batches_positive_step E np_arange torch_arange
           start stop step tensor Hstep Hlib); [lia|].
  assert (0 <= range_length start stop step)%Z; [|lia].
  rewrite range_length_positive_step by exact Hstep.
  destruct (Z.ltb_spec start stop); [|lia].
  assert (0 <= (stop - start - 1) / step)%Z by (apply Z.div_pos; lia).
  lia.
Qed.

Lemma int64_arange_indices (lo hi : Z) :
  (0 <= lo)%Z -> (lo < hi)%Z -> (hi <= 10)%Z ->
  lenient_arange lo hi = inr (indices lo hi) /\
  strict_arange lo hi = inr (indices lo hi).
Proof.
  intros H0 H1 H2. unfold lenient_arange, strict_arange, int64.
  rewrite !(proj2 (Z.leb_le _ _)), !(proj2 (Z.ltb_lt _ _)) by lia.
  split; reflexivity.
Qed.

Lemma batch_with_rest_partitions_witness :
  exists batches,
    batch_with_rest lenient_arange strict_arange 0 10 4 true
    = (batches, None) /\
    concat batches = indices 0 10 /\
    Forall (fun b => (0 < length b <= Z.to_nat 4)%nat) batches.
Proof.
  apply (@batch_with_rest_partitions unit lenient_arange strict_arange
           0 10 4 true).
  - lia.
  - intros lo hi H0 H1 H2. exact (proj2 (int64_arange_indices H0 H1 H2)).
Defined.

(** With a negative step every call of [arange] has its upper bound
    below its lower bound: when the library answers all such calls
    alike, the generator yields that answer once per value of the
    range, or stops at the first call. *)
Lemma yield_batches_negative_step {E}
  (np_arange torch_arange : Z -> Z -> E + list Z)
  (first stop step : Z) (tensor : bool) (answer : E + list Z) :
  (step < 0)%Z ->
  (forall lo hi,
      (stop + step < hi)%Z -> (hi < lo)%Z -> (lo <= first)%Z ->
      (if tensor then torch_arange lo hi else np_arange lo hi) = answer) ->
  forall n start,
    (start <= first)%Z ->
    Z.of_nat n = range_length start stop step ->
    yield_batches np_arange torch_arange stop step tensor
      (map (fun k => (start + Z.of_nat k * step)%Z) (seq 0 n))
    = match answer with
      | inr batch => (repeat batch n, None)
      | inl e => match n with
                 | O => ([], None)
                 | S _ => ([], Some (ArangeError e))
                 end
      end.
Proof.
  intros Hstep Hlib. induction n as [|n IH]; intros start Hfirst Hn;
    rewrite range_length_negative_step in Hn by exact Hstep.
  - destruct answer; reflexivity.
  - destruct (Z.ltb_spec stop start) as [Hlt|Hge]; [|lia].
    cbn [seq map yield_batches].
    replace (start + Z.of_nat 0 * step)%Z with start by lia.
    rewrite (Hlib start (Z.min (start + step) stop)) by lia.
    destruct answer as [e|batch]; [reflexivity|].
    rewrite <- seq_shift, map_map.
    rewrite (map_ext _ (fun k => (start + step + Z.of_nat k * step)%Z))
      by (intros k; lia).
    rewrite (IH (start + step)%Z); [reflexivity | lia |].
    rewrite range_length_negative_step by exact Hstep.
    destruct (Z.ltb_spec stop (start + step)) as [Hmore|Hlast].
    + replace (start - stop - 1)%Z
        with (start + step - stop - 1 + 1 * (- step))%Z in Hn by lia.
      rewrite Z.div_add in Hn by lia. lia.
    + rewrite Z.div_small in Hn by lia. lia.
Qed.

(** X26. The other steps. A zero step ends the iteration with the
    [ValueError] of [range] before any batch is yielded and before the
    array library is called. With a negative step every call of
    [arange] has its upper bound below its lower bound, so no index is
    ever yielded: with a library that returns an empty array for such
    bounds, every batch is empty, one per value of the range; with a
    library that raises for such bounds, the iteration ends with that
    exception at the first batch. *)
Theorem batch_with_rest_backwards :
  forall (E : Type) (np_arange torch_arange : Z -> Z -> E + list Z)
         (start stop step : Z) (tensor : bool),
    (step <= 0)%Z ->
    (step = 0%Z ->
     exists msg,
       batch_with_rest np_arange torch_arange start stop step tensor
       = ([], Some (RangeError (ValueError msg)))) /\
    ((step < 0)%Z ->
     (forall lo hi,
         (stop + step < hi)%Z -> (hi < lo)%Z -> (lo <= start)%Z ->
         (if tensor then torch_arange lo hi else np_arange lo hi)
         = inr []) ->
     batch_with_rest np_arange torch_arange start stop step tensor
     = (repeat [] (Z.to_nat (range_length start stop step)), None)) /\
    ((step < 0)%Z -> (stop < start)%Z ->
     forall e,
       (forall lo hi,
           (stop + step < hi)%Z -> (hi < lo)%Z -> (lo <= start)%Z ->
           (if tensor then torch_arange lo hi else np_arange lo hi)
           = inl e) ->
       batch_with_rest np_arange torch_arange start stop step tensor
       = ([], Some (ArangeError e))).
Proof.
  intros E np_arange torch_arange start stop step tensor Hstep.
  assert (Hlen : (step < 0)%Z ->
                 Z.of_nat (Z.to_nat (range_length start stop step))
                 = range_length start stop step).
  { intros Hneg.
    assert (0 <= range_length start stop step)%Z; [|lia].
    rewrite range_length_negative_step by exact Hneg.
    destruct (Z.ltb_spec stop start); [|lia].
    assert (0 <= (start - stop - 1) / - step)%Z by (apply Z.div_pos; lia).
    lia. }
  split; [|split].
  - intros ->. eexists. reflexivity.
  - intros Hneg Hlib. unfold batch_with_rest, py_range.
    rewrite (proj2 (Z.eqb_neq step 0)) by lia.
    exact (@yield_batches_negative_step E np_arange torch_arange
             start stop step tensor (inr []) Hneg Hlib
             (Z.to_nat (range_length start stop step)) start
             (Z.le_refl start) (Hlen Hneg)).
  - intros Hneg Hlt e Hlib. unfold batch_with_rest, py_range.
    rewrite (proj2 (Z.eqb_neq step 0)) by lia.
    rewrite (@yield_batches_negative_step E np_arange torch_arange
               start stop step tensor (inl e) Hneg Hlib
               (Z.to_nat (range_length start stop step)) start
               (Z.le_refl start) (Hlen Hneg)).
    assert (Hpos : (0 < range_length start stop step)%Z).
    { rewrite range_length_negative_step by exact Hneg.
      rewrite (proj2 (Z.ltb_lt stop start) Hlt).
      assert (0 <= (start - stop - 1) / - step)%Z
        by (apply Z.div_pos; lia).
      lia. }
    destruct (Z.to_nat (range_length start stop step)) eqn:En;
      [lia | reflexivity].
Qed.

Lemma int64_arange_backwards (lo hi : Z) :
  (-4 < hi)%Z -> (hi < lo)%Z -> (lo <= 10)%Z ->
  lenient_arange lo hi = inr [] /\ strict_arange lo hi = inl tt.
Proof.
  intros H0 H1 H2. unfold lenient_arange, strict_arange, int64.
  rewrite !(proj2 (Z.leb_le _ _)), !(proj2 (Z.ltb_lt _ _)) by lia.
  rewrite (proj2 (Z.leb_gt lo hi)) by lia.
  rewrite indices_empty by lia. split; reflexivity.
Qed.

Lemma batch_with_rest_backwards_witness :
  batch_with_rest lenient_arange strict_arange 10 0 (-4) false
  = (repeat [] (Z.to_nat (range_length 10 0 (-4))), None) /\
  batch_with_rest lenient_arange strict_arange 10 0 (-4) true
  = ([], Some (ArangeError tt)).
Proof.
  split.
  - apply (proj1 (proj2 (@batch_with_rest_backwards unit lenient_arange
                           strict_arange 10 0 (-4) false ltac:(lia))));
      [lia|].
    intros lo hi H0 H1 H2. exact (proj1 (int64_arange_backwards H0 H1 H2)).
  - apply (proj2 (proj2 (@batch_with_rest_backwards unit lenient_arange
                           strict_arange 10 0 (-4) true ltac:(lia))));
      [lia | lia |].
    intros lo hi H0 H1 H2. exact (proj2 (int64_arange_backwards H0 H1 H2)).
Defined.
